(** * Ecommerce consumer behaviour dashboard: the filter / aggregate /
      personalise pipeline of [app.py]

    The script is a Streamlit page over one pandas DataFrame.  This
    development embeds the parts of it that compute: the currency
    normalisation of [Purchase_Amount] (lines 62-67), the sidebar options
    and filters (lines 78-121), the KPI scalars (lines 133-136), the
    revenue-by-category frame (lines 154-159) and the personalised
    insights block (lines 235-283).

    Modelling conventions.
    - A float64 cell is a [num]: a rational or [NaN].  Rounding and the
      infinities are outside the model, so no theorem below rests on an
      arithmetic identity between sums or means: the statements are about
      which rows are read, in which order, and when a value is NaN or an
      exception is raised; concrete runs use small whole numbers, on which
      float64 arithmetic is exact.
    - A cell of the amount column before conversion is a str, a float or
      an integer, as [read_csv] types it.
    - A categorical cell is an [option string], [None] being pandas' null.
    - A DataFrame is its list of column names together with its rows; a
      row is a record with one field per column the script reads.
    - A Python exception is a [Raise] in the [result] monad. *)

From Stdlib Require Import List String Ascii Bool Arith ZArith QArith Lia.
From Stdlib Require Import Permutation Sorted Orders Mergesort OrderedTypeEx.
Import ListNotations.

Local Open Scope string_scope.
Local Open Scope list_scope.

(* ===================================================================== *)
(** ** Python runtime pieces                                              *)
(* ===================================================================== *)

Module Py.

(** The exceptions the modelled lines can raise. *)
Inductive exn : Type :=
| KeyError (key : string)
| ValueError (msg : string).

Inductive result (A : Type) : Type :=
| Ok (a : A)
| Raise (e : exn).

Arguments Ok {A} a.
Arguments Raise {A} e.

Definition bind {A B : Type} (c : result A) (k : A -> result B) : result B :=
  match c with
  | Ok a => k a
  | Raise e => Raise e
  end.

(** [for x in xs: f x], stopping at the first exception. *)
Fixpoint mapM {A B : Type} (f : A -> result B) (xs : list A) : result (list B) :=
  match xs with
  | [] => Ok []
  | x :: xs' =>
      bind (f x) (fun y => bind (mapM f xs') (fun ys => Ok (y :: ys)))
  end.

(** Truthiness of a list: [if selected:] holds when the list is not empty. *)
Definition truthy {A : Type} (l : list A) : bool :=
  match l with
  | [] => false
  | _ :: _ => true
  end.

(** A float64 value: a rational or NaN. *)
Inductive num : Type :=
| Fin (q : Q)
| NaN.

Definition Qlt_bool (x y : Q) : bool := negb (Qle_bool y x).

(** [a > b] on floats: false as soon as one side is NaN. *)
Definition gt (a b : num) : bool :=
  match a, b with
  | Fin x, Fin y => Qlt_bool y x
  | _, _ => false
  end.

(** The same comparison as a proposition. *)
Definition exceeds (a b : num) : Prop :=
  match a, b with
  | Fin x, Fin y => (y < x)%Q
  | _, _ => False
  end.

End Py.

Export Py.

Notation "x <- c ;; k" := (bind c (fun x => k))
  (at level 61, c at next level, right associativity).

(** String order used by [sorted] and [np.sort] on str objects. *)
Module StringOrder <: TotalLeBool.
Definition t := string.
Definition leb : t -> t -> bool := String.leb.
Definition leb_total : forall a b, leb a b = true \/ leb b a = true :=
  String.leb_total.
End StringOrder.

Module StringSort := Sort StringOrder.

(** [sorted(xs)] on a list of str. *)
Definition sorted (xs : list string) : list string := StringSort.sort xs.

(* ===================================================================== *)
(** ** pandas Series operations                                           *)
(* ===================================================================== *)

Module Series.

(** [s.dropna()] on a categorical column. *)
Fixpoint dropna (s : list (option string)) : list string :=
  match s with
  | [] => []
  | Some v :: s' => v :: dropna s'
  | None :: s' => dropna s'
  end.

Definition mem (v : string) (l : list string) : bool :=
  existsb (String.eqb v) l.

(** [s.unique()]: distinct values in order of first appearance. *)
Fixpoint unique_from (seen : list string) (s : list string) : list string :=
  match s with
  | [] => []
  | v :: s' =>
      if mem v seen then unique_from seen s'
      else v :: unique_from (v :: seen) s'
  end.

Definition unique (s : list string) : list string := unique_from [] s.

(** One cell of [s.isin(values)]: a null is never a member. *)
Definition isin (c : option string) (values : list string) : bool :=
  match c with
  | Some v => mem v values
  | None => false
  end.

(** One cell of [s == x] for a scalar [x]; a null on either side gives False. *)
Definition eq_cell {A : Type} (eqb : A -> A -> bool) (c x : option A) : bool :=
  match c, x with
  | Some a, Some b => eqb a b
  | _, _ => false
  end.

(** The non-NaN values of a float column. *)
Fixpoint finite (s : list num) : list Q :=
  match s with
  | [] => []
  | Fin q :: s' => q :: finite s'
  | NaN :: s' => finite s'
  end.

Definition Qsum (l : list Q) : Q := fold_right Qplus 0%Q l.

(** [s.sum()]: NaN cells are skipped; the sum of nothing is 0. *)
Definition sum (s : list num) : Q := Qsum (finite s).

(** [s.mean()]: NaN cells are skipped; the mean of nothing is NaN. *)
Definition mean (s : list num) : num :=
  match finite s with
  | [] => NaN
  | q :: l => Fin (Qsum (q :: l) / inject_Z (Z.of_nat (List.length (q :: l))))
  end.

Definition count (v : string) (l : list string) : nat :=
  List.length (filter (String.eqb v) l).

Definition max_count (keys l : list string) : nat :=
  fold_right (fun k m => Nat.max (count k l) m) 0%nat keys.

(** [s.mode()]: nulls dropped, the values of highest count, sorted. *)
Definition mode (s : list (option string)) : list string :=
  let vals := dropna s in
  let keys := unique vals in
  let m := max_count keys vals in
  sorted (filter (fun k => Nat.eqb (count k vals) m) keys).

(** [s[0]] on the result of [mode()]: label 0 of a fresh RangeIndex. *)
Definition getitem0 (s : list string) : result string :=
  match s with
  | v :: _ => Ok v
  | [] => Raise (KeyError "0")
  end.

End Series.

(* ===================================================================== *)
(** ** Currency normalisation (lines 62-67)                               *)
(* ===================================================================== *)

Module Loader.

(** A cell of the amount column as [read_csv] delivers it: a str in an
    object column (the file held currency text), a float in a float64
    column or for a missing value, an integer in an int64 column. *)
Inductive raw : Type :=
| RStr (s : string)
| RNum (x : num)
| RInt (z : Z).

Definition is_currency_mark (c : ascii) : bool :=
  (Ascii.eqb c "$" || Ascii.eqb c ",")%char%bool.

(** [re.sub('[\$,]', '', s)]. *)
Fixpoint strip_currency (s : string) : string :=
  match s with
  | EmptyString => EmptyString
  | String c s' =>
      if is_currency_mark c then strip_currency s'
      else String c (strip_currency s')
  end.

(** One cell of [.replace('[\$,]', '', regex=True)]: only str cells change. *)
Definition replace_cell (c : raw) : raw :=
  match c with
  | RStr s => RStr (strip_currency s)
  | RNum x => RNum x
  | RInt z => RInt z
  end.

(** The float64 nearest to an integer of the int64 range: the integer
    itself up to 53 bits, otherwise its leading 53 bits rounded to
    nearest, ties to even. *)
Definition round_to_53_bits (z : Z) : Z :=
  let n := Z.abs z in
  let bits := (Z.log2 n + 1)%Z in
  if (bits <=? 53)%Z then z
  else
    let shift := (bits - 53)%Z in
    let q := Z.shiftr n shift in
    let rest := (n - Z.shiftl q shift)%Z in
    let half := Z.shiftl 1 (shift - 1) in
    let q' := if ((half <? rest) || ((rest =? half) && Z.odd q))%Z%bool
              then (q + 1)%Z else q in
    (Z.sgn z * Z.shiftl q' shift)%Z.

Definition float_of_int (z : Z) : num := Fin (inject_Z (round_to_53_bits z)).

Section Cast.

(** [float(s)] on a str, [None] standing for its ValueError. *)
Variable float_of_str : string -> option num.

(** One cell of [.astype(float)]. *)
Definition astype_float_cell (c : raw) : result num :=
  match c with
  | RNum x => Ok x
  | RInt z => Ok (float_of_int z)
  | RStr s =>
      match float_of_str s with
      | Some x => Ok x
      | None => Raise (ValueError s)
      end
  end.

(** [df["Purchase_Amount"].replace('[\$,]', '', regex=True).astype(float)],
    run when the frame has the column (line 62). *)
Definition normalize_amount (col : list raw) : result (list num) :=
  mapM astype_float_cell (map replace_cell col).

End Cast.

(** A cast for plain decimal literals, [[+-]digits[.digits]]: it agrees
    with [float] on them and stands for the ValueError elsewhere.  It is
    used to run [normalize_amount] on concrete columns. *)
Definition digit_val (c : ascii) : option Z :=
  let n := Z.of_nat (nat_of_ascii c) in
  if ((48 <=? n) && (n <=? 57))%Z then Some (n - 48)%Z else None.

Fixpoint digits (acc : Z) (s : string) : option (Z * string) :=
  match s with
  | EmptyString => Some (acc, EmptyString)
  | String c s' =>
      if Ascii.eqb c "."%char then Some (acc, s)
      else match digit_val c with
           | Some d => digits (10 * acc + d)%Z s'
           | None => None
           end
  end.

Fixpoint fraction (acc : Z) (scale : positive) (s : string) : option Q :=
  match s with
  | EmptyString => Some (acc # scale)
  | String c s' =>
      match digit_val c with
      | Some d => fraction (10 * acc + d)%Z (10 * scale)%positive s'
      | None => None
      end
  end.

Definition unsigned_literal (s : string) : option Q :=
  match s with
  | EmptyString => None
  | String c _ =>
      match digit_val c with
      | None => None
      | Some _ =>
          match digits 0 s with
          | Some (n, EmptyString) => Some (inject_Z n)
          | Some (n, String _ EmptyString) => Some (inject_Z n)
          | Some (n, String _ frac) =>
              match fraction 0 1 frac with
              | Some f => Some (inject_Z n + f)%Q
              | None => None
              end
          | None => None
          end
      end
  end.

Definition plain_decimal (s : string) : option num :=
  match s with
  | String "-"%char s' => option_map (fun q => Fin (- q)%Q) (unsigned_literal s')
  | String "+"%char s' => option_map Fin (unsigned_literal s')
  | _ => option_map Fin (unsigned_literal s)
  end.

End Loader.

(* ===================================================================== *)
(** ** The DataFrame of the script                                        *)
(* ===================================================================== *)

Module Frame.

(** One row, with the columns the modelled lines read.  Two category
    columns and two frequency columns exist side by side in the script. *)
Record Row : Type := mkRow {
  Age : option Z;
  Gender : option string;
  Income_Level : option string;
  Purchase_Channel : option string;
  Purchase_Category : option string;
  Product_Category : option string;
  Purchase_Amount : num;
  Frequency_of_Purchase : num;
  Purchase_Frequency : num
}.

Record DataFrame : Type := mkFrame {
  columns : list string;
  rows : list Row
}.

(** [col in df.columns]. *)
Definition has_column (df : DataFrame) (col : string) : bool :=
  Series.mem col (columns df).

(** The categorical cell a row holds under a column name. *)
Definition cell (col : string) (r : Row) : option string :=
  if col =? "Purchase_Channel" then Purchase_Channel r
  else if col =? "Purchase_Category" then Purchase_Category r
  else if col =? "Gender" then Gender r
  else if col =? "Income_Level" then Income_Level r
  else if col =? "Product_Category" then Product_Category r
  else None.

(** [df[df[col].isin(values)]], a KeyError when the column is missing. *)
Definition keep_isin (col : string) (values : list string) (df : DataFrame)
  : result DataFrame :=
  if has_column df col
  then Ok (mkFrame (columns df)
                   (filter (fun r => Series.isin (cell col r) values) (rows df)))
  else Raise (KeyError col).


End Frame.

Export Frame.

(* ===================================================================== *)
(** ** Sidebar filters (lines 78-121)                                     *)
(* ===================================================================== *)

Module Sidebar.

(** The four filterable columns. *)
Inductive filterable : Type :=
| Channel
| Category
| Gender_
| Income.

Definition column_name (a : filterable) : string :=
  match a with
  | Channel => "Purchase_Channel"
  | Category => "Purchase_Category"
  | Gender_ => "Gender"
  | Income => "Income_Level"
  end.

Definition all_filterable : list filterable := [Channel; Category; Gender_; Income].

(** [get_options(col_name)]. *)
Definition get_options (df : DataFrame) (col_name : string) : list string :=
  if has_column df col_name
  then sorted (Series.unique (Series.dropna (map (cell col_name) (rows df))))
  else [].

(** What the four multiselect widgets return. *)
Record Selection : Type := mkSelection {
  selected_channel : list string;
  selected_category : list string;
  selected_gender : list string;
  selected_income : list string
}.

Definition selected (sel : Selection) (a : filterable) : list string :=
  match a with
  | Channel => selected_channel sel
  | Category => selected_category sel
  | Gender_ => selected_gender sel
  | Income => selected_income sel
  end.

(** The widgets' defaults: every option of every column. *)
Definition default_selection (df : DataFrame) : Selection :=
  mkSelection (get_options df "Purchase_Channel")
              (get_options df "Purchase_Category")
              (get_options df "Gender")
              (get_options df "Income_Level").

(** One [if selected: filtered_df = filtered_df[...isin(selected)]] step. *)
Definition filter_step (col : string) (values : list string) (fdf : DataFrame)
  : result DataFrame :=
  if truthy values then keep_isin col values fdf else Ok fdf.

(** Lines 112-121. *)
Definition filtered_df (df : DataFrame) (sel : Selection) : result DataFrame :=
  f0 <- Ok df ;;
  f1 <- filter_step "Purchase_Channel" (selected_channel sel) f0 ;;
  f2 <- filter_step "Purchase_Category" (selected_category sel) f1 ;;
  f3 <- filter_step "Gender" (selected_gender sel) f2 ;;
  filter_step "Income_Level" (selected_income sel) f3.

(** The filter rule in the words of the specification: an attribute with
    an empty allowed set imposes nothing, any other demands membership. *)
Definition allowed (values : list string) (c : option string) : bool :=
  match values with
  | [] => true
  | _ :: _ => Series.isin c values
  end.

Definition passes (sel : Selection) (r : Row) : bool :=
  forallb (fun a => allowed (selected sel a) (cell (column_name a) r))
          all_filterable.

(** Every non-empty choice names a column the frame has.  The widgets can
    return nothing else: their options are [get_options], empty for a
    missing column. *)
Definition selection_fits (df : DataFrame) (sel : Selection) : Prop :=
  forall a, selected sel a <> [] -> has_column df (column_name a) = true.

End Sidebar.

(* ===================================================================== *)
(** ** The sort behind [sort_values]: numpy's [argsort(kind="quicksort")]  *)
(* ===================================================================== *)

(** [sort_values] hands the column to [nargsort], which calls
    [argsort] with the default kind: an introsort on an array of
    positions, with median-of-three partitioning above 16 elements,
    insertion sort below, and heapsort once the depth limit is spent.
    This is the scalar routine; builds that dispatch to a vectorised sort
    run another one, with the same contract. *)
Module Numpy.




Section Argsort.

(** The keys; the array being permuted holds positions into them. *)
Variable v : list Q.

Definition key (i : nat) : Q := nth i v 0%Q.



















End Argsort.

End Numpy.

(* ===================================================================== *)
(** ** KPI scalars and revenue by category (lines 133-159)                *)
(* ===================================================================== *)

Module Metrics.


(** Line 134. *)
Definition avg_purchase (fdf : DataFrame) : num :=
  if has_column fdf "Purchase_Amount"
  then Series.mean (map Purchase_Amount (rows fdf))
  else Fin 0.

(** Line 136. *)
Definition avg_frequency (fdf : DataFrame) : num :=
  if has_column fdf "Frequency_of_Purchase"
  then Series.mean (map Frequency_of_Purchase (rows fdf))
  else Fin 0.

(** The rows of one group of [groupby("Purchase_Category")]. *)
Definition group (k : string) (rs : list Row) : list Row :=
  filter (fun r => Series.eq_cell String.eqb (Purchase_Category r) (Some k)) rs.

(** The group keys: the non-null categories, distinct and sorted
    ([groupby] runs with [sort=True] and [dropna=True]). *)
Definition group_keys (rs : list Row) : list string :=
  sorted (Series.unique (Series.dropna (map Purchase_Category rs))).

(** [groupby("Purchase_Category")["Purchase_Amount"].sum().reset_index()]. *)
Definition groupby_sum (rs : list Row) : list (string * Q) :=
  map (fun k => (k, Series.sum (map Purchase_Amount (group k rs))))
      (group_keys rs).

(** The order [sort_values(..., ascending=False)] has to deliver. *)
Definition descending (a b : string * Q) : Prop := (snd b <= snd a)%Q.

(** What [sort_values("Purchase_Amount", ascending=False)] promises with
    its default [kind]: the same rows, larger amounts first.  The default
    kind is numpy's quicksort, which pandas documents as not stable, so
    the place of rows with equal amounts is left to the routine. *)
Definition sort_contract (sort_values : list (string * Q) -> list (string * Q))
  : Prop :=
  forall l, Permutation l (sort_values l)
            /\ StronglySorted descending (sort_values l).

Section SortValues.

Variable sort_values : list (string * Q) -> list (string * Q).


End SortValues.



(** A merge sort on the amount, a routine that meets the contract. *)
Definition amount_geb (a b : string * Q) : bool := Qle_bool (snd b) (snd a).

Lemma amount_geb_total (a b : string * Q) :
  amount_geb a b = true \/ amount_geb b a = true.
Proof.
  unfold amount_geb.
  destruct (Qle_bool (snd b) (snd a)) eqn:E; [now left | right].
  apply Qle_bool_iff. apply Qlt_le_weak. apply Qnot_le_lt.
  intro H. apply Qle_bool_iff in H. congruence.
Qed.

Module AmountOrder <: TotalLeBool.
Definition t : Type := (string * Q)%type.
Definition leb : t -> t -> bool := amount_geb.
Definition leb_total : forall a b, leb a b = true \/ leb b a = true :=
  amount_geb_total.
End AmountOrder.

Module AmountSort := Sort AmountOrder.


(** A stable routine, what [kind="stable"] would give: rows with equal
    amounts keep the order in which they came. *)
Fixpoint insert_stable (x : string * Q) (l : list (string * Q))
  : list (string * Q) :=
  match l with
  | [] => [x]
  | y :: t => if amount_geb x y then x :: y :: t else y :: insert_stable x t
  end.

Definition sort_stable (l : list (string * Q)) : list (string * Q) :=
  fold_right insert_stable [] l.

(** Larger amount first, and for equal amounts smaller label first. *)
Definition amount_then_label (a b : string * Q) : Prop :=
  (snd b < snd a)%Q \/ ((snd a == snd b)%Q /\ (fst a <=? fst b) = true).


(** Ties in label order, as the specification words it: of two
    neighbouring rows with equal amounts the first has the smaller label. *)
Fixpoint ties_by_label (l : list (string * Q)) : Prop :=
  match l with
  | a :: (b :: _) as l' =>
      ((snd a == snd b)%Q -> (fst a <=? fst b) = true) /\ ties_by_label l'
  | _ => True
  end.


End Metrics.

(* ===================================================================== *)
(** ** Personalised insights (lines 235-283)                              *)
(* ===================================================================== *)

Module Insights.

(** What the page shows besides the report itself. *)
Inductive event : Type :=
| Warning (msg : string)
| Info (msg : string).

(** A computation that writes to the page and may raise. *)
Definition ui (A : Type) : Type := (list event * result A)%type.

Definition ret {A : Type} (a : A) : ui A := ([], Ok a).

Definition lift {A : Type} (r : result A) : ui A := ([], r).

Definition show (e : event) : ui unit := ([e], Ok tt).

Definition then_ {A B : Type} (c : ui A) (k : A -> ui B) : ui B :=
  match c with
  | (log, Ok a) => let (log', r) := k a in (log ++ log', r)
  | (log, Raise e) => (log, Raise e)
  end.

(** The three select boxes that key the match.  A box over no options
    returns [None]. *)
Record Profile : Type := mkProfile {
  age_input : option Z;
  income_input : option string;
  channel_input : option string
}.

(** [df[col]] for the sake of its KeyError. *)
Definition require (df : DataFrame) (col : string) : result unit :=
  if has_column df col then Ok tt else Raise (KeyError col).

Definition select (keep : Row -> bool) (df : DataFrame) : DataFrame :=
  mkFrame (columns df) (filter keep (rows df)).

Definition exact_match (p : Profile) (r : Row) : bool :=
  Series.eq_cell Z.eqb (Age r) (age_input p)
  && Series.eq_cell String.eqb (Income_Level r) (income_input p)
  && Series.eq_cell String.eqb (Purchase_Channel r) (channel_input p).

Definition income_match (p : Profile) (r : Row) : bool :=
  Series.eq_cell String.eqb (Income_Level r) (income_input p).

(** [df.empty]: no rows or no columns. *)
Definition empty (df : DataFrame) : bool :=
  negb (truthy (rows df)) || negb (truthy (columns df)).

Definition no_exact_match : string :=
  "No exact match — showing closest matches instead.".

(** Lines 236-244. *)
Definition user_segment (df : DataFrame) (p : Profile) : ui DataFrame :=
  then_ (lift (require df "Age")) (fun _ =>
  then_ (lift (require df "Income_Level")) (fun _ =>
  then_ (lift (require df "Purchase_Channel")) (fun _ =>
  let seg := select (exact_match p) df in
  if empty seg
  then then_ (show (Warning no_exact_match)) (fun _ =>
       then_ (lift (require df "Income_Level")) (fun _ =>
       ret (select (income_match p) df)))
  else ret seg))).

(** [seg[col].mean()]. *)
Definition column_mean (seg : DataFrame) (col : string) (field : Row -> num)
  : result num :=
  _ <- require seg col ;; Ok (Series.mean (map field (rows seg))).

(** Line 247: [user_segment["Product_Category"].mode()[0]]. *)
Definition top_category (seg : DataFrame) : result string :=
  _ <- require seg "Product_Category" ;;
  Series.getitem0 (Series.mode (map Product_Category (rows seg))).

Definition rec_high_value : string :=
  "🔥 You're a high-value frequent shopper — personalized loyalty rewards recommended!".
Definition rec_premium : string :=
  "💰 You love premium purchases — consider exclusive membership perks.".
Definition rec_frequent : string :=
  "🌟 Frequent shopper — subscription bundles could save you more!".
Definition rec_value : string :=
  "💡 Look for seasonal deals and personalized offers to maximize value.".

(** Lines 274-281. *)
Definition rec (avg_spending avg_frequency
                overall_avg_spending overall_avg_frequency : num) : string :=
  if gt avg_spending overall_avg_spending
     && gt avg_frequency overall_avg_frequency
  then rec_high_value
  else if gt avg_spending overall_avg_spending then rec_premium
  else if gt avg_frequency overall_avg_frequency then rec_frequent
  else rec_value.

Record Report : Type := mkReport {
  avg_spending : num;
  top : string;
  avg_frequency : num;
  overall_avg_spending : num;
  overall_avg_frequency : num;
  recommendation : string
}.

(** Lines 246-283, on the segment chosen above. *)
Definition statistics (df seg : DataFrame) : ui Report :=
  then_ (lift (column_mean seg "Purchase_Amount" Purchase_Amount)) (fun a =>
  then_ (lift (top_category seg)) (fun c =>
  then_ (lift (column_mean seg "Purchase_Frequency" Purchase_Frequency)) (fun f =>
  then_ (lift (column_mean df "Purchase_Amount" Purchase_Amount)) (fun oa =>
  then_ (lift (column_mean df "Purchase_Frequency" Purchase_Frequency)) (fun of_ =>
  let r := rec a f oa of_ in
  then_ (show (Info r)) (fun _ =>
  ret (mkReport a c f oa of_ r))))))).

(** The body of [if st.button("Get My Insights"):]. *)
Definition insights (df : DataFrame) (p : Profile) : ui Report :=
  then_ (user_segment df p) (statistics df).

(** The tie rule of the specification for the most frequent category:
    of the values of highest count, the one met first in row order. *)
Definition first_encountered_mode (s : list (option string)) : option string :=
  let vals := Series.dropna s in
  let m := Series.max_count (Series.unique vals) vals in
  find (fun k => Nat.eqb (Series.count k vals) m) (Series.unique vals).

(** A value of highest count among the non-null values. *)
Definition modal (c : string) (vals : list string) : Prop :=
  In c vals /\ forall x, (Series.count x vals <= Series.count c vals)%nat.

(** The columns the match keys on. *)
Definition has_keys (df : DataFrame) : Prop :=
  has_column df "Age" = true
  /\ has_column df "Income_Level" = true
  /\ has_column df "Purchase_Channel" = true.



End Insights.

(* ===================================================================== *)
(** ** Small tables on which the definitions are run                      *)
(* ===================================================================== *)

Module Samples.

Import Insights.

Definition sample_row (gender channel : option string) : Row :=
  mkRow (Some 30%Z) gender (Some "High") channel (Some "Electronics")
        (Some "Gadgets") (Fin 100) (Fin 2) (Fin 2).

Definition all_columns : list string :=
  ["Age"; "Gender"; "Income_Level"; "Purchase_Channel"; "Purchase_Category";
   "Product_Category"; "Purchase_Amount"; "Frequency_of_Purchase";
   "Purchase_Frequency"].

Definition two_channels : DataFrame :=
  mkFrame all_columns
          [sample_row (Some "F") (Some "Online");
           sample_row (Some "M") (Some "Store")].

Definition gender_unrecorded : DataFrame :=
  mkFrame all_columns
          [sample_row None (Some "Online"); sample_row None (Some "Store")].

Definition gender_partly_recorded : DataFrame :=
  mkFrame all_columns
          [sample_row None (Some "Online"); sample_row (Some "F") (Some "Store")].

Definition no_rows : DataFrame := mkFrame all_columns [].

Definition category_row (income category : string) (amount freq : Q) : Row :=
  mkRow (Some 30%Z) (Some "F") (Some income) (Some "Online")
        (Some "Electronics") (Some category) (Fin amount) (Fin freq) (Fin freq).

Definition shoes_then_books : DataFrame :=
  mkFrame all_columns
          [category_row "High" "Shoes" 10 1; category_row "High" "Books" 20 2].

Definition three_high_income : DataFrame :=
  mkFrame all_columns
          [category_row "High" "Shoes" 10 1;
           category_row "Low" "Books" 20 2;
           mkRow (Some 41%Z) (Some "M") (Some "High") (Some "Store")
                 (Some "Apparel") (Some "Shoes") (Fin 30) (Fin 3) (Fin 3);
           mkRow (Some 52%Z) (Some "F") (Some "High") (Some "Store")
                 (Some "Apparel") (Some "Books") (Fin 50) (Fin 5) (Fin 5)].

Definition thirty_high_store : Profile :=
  mkProfile (Some 30%Z) (Some "High") (Some "Store").








Definition forty_one_high_store : Profile :=
  mkProfile (Some 41%Z) (Some "High") (Some "Store").

End Samples.

(* ===================================================================== *)
(** ** The other KPI and the chart frames (lines 135, 164-223)            *)
(* ===================================================================== *)

Module Charts.

(** Insertion sort along a boolean order, the concrete routine the chart
    frames are run with. *)
Fixpoint insert_by {A : Type} (before : A -> A -> bool) (x : A) (l : list A)
  : list A :=
  match l with
  | [] => [x]
  | y :: t => if before x y then x :: y :: t else y :: insert_by before x t
  end.

Definition sort_by {A : Type} (before : A -> A -> bool) (l : list A) : list A :=
  fold_right (insert_by before) [] l.


Section Identifier.

(** The identifier column, which the row record leaves out. *)
Variable Customer_ID : Row -> option string.


End Identifier.

(** [s.value_counts()] before its sort: each non-null value with the
    number of cells that hold it. *)
Definition value_counts_unsorted (s : list (option string))
  : list (string * nat) :=
  let vals := Series.dropna s in
  map (fun k => (k, Series.count k vals)) (Series.unique vals).

(** The order [value_counts] sorts by: larger counts first. *)
Definition more_first (a b : string * nat) : Prop := (snd b <= snd a)%nat.

Definition more_first_b (a b : string * nat) : bool := Nat.leb (snd b) (snd a).

(** What the sort inside [value_counts] promises. *)
Definition count_sort_contract
  (sort_counts : list (string * nat) -> list (string * nat)) : Prop :=
  forall l, Permutation l (sort_counts l)
            /\ StronglySorted more_first (sort_counts l).

(** The order of [sort_values(..., ascending=False)] on a float column:
    larger values first, NaN at the end ([na_position="last"]). *)
Definition larger_first_b (a b : string * num) : bool :=
  match snd a, snd b with
  | _, NaN => true
  | NaN, Fin _ => false
  | Fin x, Fin y => Qle_bool y x
  end.

Definition larger_first (a b : string * num) : Prop :=
  larger_first_b a b = true.

Definition mean_sort_contract
  (sort_means : list (string * num) -> list (string * num)) : Prop :=
  forall l, Permutation l (sort_means l)
            /\ StronglySorted larger_first (sort_means l).

(** The rows of one group of [groupby(key)]. *)
Definition group_by (key : Row -> option string) (k : string) (rs : list Row)
  : list Row :=
  filter (fun r => Series.eq_cell String.eqb (key r) (Some k)) rs.

(** [groupby(key)[value].mean().reset_index()]. *)
Definition groupby_mean (key : Row -> option string) (value : Row -> num)
  (rs : list Row) : list (string * num) :=
  map (fun k => (k, Series.mean (map value (group_by key k rs))))
      (sorted (Series.unique (Series.dropna (map key rs)))).

Section Sorts.

Variable sort_counts : list (string * nat) -> list (string * nat).
Variable sort_means : list (string * num) -> list (string * num).

(** Lines 165-167; [None] when the guard skips the chart. *)
Definition channel_counts (fdf : DataFrame) : option (list (string * nat)) :=
  if has_column fdf "Purchase_Channel"
  then Some (sort_counts (value_counts_unsorted
                            (map Purchase_Channel (rows fdf))))
  else None.

(** Lines 184-186. *)
Definition gender_counts (fdf : DataFrame) : option (list (string * nat)) :=
  if has_column fdf "Gender"
  then Some (sort_counts (value_counts_unsorted (map Gender (rows fdf))))
  else None.

(** Lines 193-197. *)
Definition income_rev (fdf : DataFrame) : option (list (string * num)) :=
  if has_column fdf "Income_Level" && has_column fdf "Purchase_Amount"
  then Some (sort_means (groupby_mean Income_Level Purchase_Amount (rows fdf)))
  else None.

(** The loyalty score column, which the row record leaves out. *)
Variable Brand_Loyalty : Row -> num.

(** Lines 216-220. *)
Definition loyalty (fdf : DataFrame) : option (list (string * num)) :=
  if has_column fdf "Brand_Loyalty" && has_column fdf "Purchase_Category"
  then Some (sort_means (groupby_mean Purchase_Category Brand_Loyalty (rows fdf)))
  else None.

End Sorts.

End Charts.

(* ===================================================================== *)
(** ** Facts about the runtime and Series operations                      *)
(* ===================================================================== *)

Module Facts.

Import Series.

Lemma leb_spec (a b : string) :
  (a <=? b) = true <-> String_as_OT.lt a b \/ a = b.
Proof.
  unfold String.leb.
  pose proof (String_as_OT.cmp_lt a b) as Hlt.
  pose proof (String_as_OT.cmp_eq a b) as Heq.
  unfold String_as_OT.cmp in *.
  destruct (String.compare a b) eqn:E; split; intro H.
  - right. now apply Heq.
  - reflexivity.
  - left. now apply Hlt.
  - reflexivity.
  - discriminate.
  - destruct H as [H | H].
    + apply Hlt in H. discriminate.
    + apply Heq in H. discriminate.
Qed.

Lemma leb_refl (a : string) : (a <=? a) = true.
Proof. apply leb_spec. now right. Qed.

Lemma leb_trans (a b c : string) :
  (a <=? b) = true -> (b <=? c) = true -> (a <=? c) = true.
Proof.
  rewrite !leb_spec. intros [H1 | ->] [H2 | ->]; auto.
  left. eapply String_as_OT.lt_trans; eauto.
Qed.

Lemma sorted_perm (l : list string) : Permutation l (sorted l).
Proof. apply StringSort.Permuted_sort. Qed.

Lemma sorted_In (l : list string) (x : string) : In x (sorted l) <-> In x l.
Proof.
  split; intro H.
  - eapply Permutation_in; [apply Permutation_sym, sorted_perm | exact H].
  - eapply Permutation_in; [apply sorted_perm | exact H].
Qed.

Lemma sorted_NoDup (l : list string) : NoDup l -> NoDup (sorted l).
Proof. intro H. eapply Permutation_NoDup; [apply sorted_perm | exact H]. Qed.

Lemma sorted_ascending (l : list string) :
  StronglySorted (fun a b => (a <=? b) = true) (sorted l).
Proof.
  apply Sorted_StronglySorted.
  - intros a b c. apply leb_trans.
  - exact (StringSort.Sorted_sort l).
Qed.

(** The head of a sorted list is its least element. *)
Lemma sorted_head_least (l : list string) (x : string) (rest : list string) :
  sorted l = x :: rest -> forall y, In y l -> (x <=? y) = true.
Proof.
  intros E y Hy. apply sorted_In in Hy.
  pose proof (sorted_ascending l) as S. rewrite E in *.
  inversion S as [| ? ? _ Hall]; subst.
  destruct Hy as [<- | Hy]; [apply leb_refl |].
  rewrite Forall_forall in Hall. now apply Hall.
Qed.

Lemma sorted_nil_iff (l : list string) : sorted l = [] <-> l = [].
Proof.
  split; intro H.
  - apply Permutation_nil. rewrite <- H. apply Permutation_sym, sorted_perm.
  - subst. reflexivity.
Qed.

Lemma mem_In (v : string) (l : list string) : mem v l = true <-> In v l.
Proof.
  unfold mem. rewrite existsb_exists. split.
  - intros [x [Hx E]]. apply String.eqb_eq in E. now subst.
  - intro H. exists v. split; [exact H | apply String.eqb_refl].
Qed.

Lemma mem_false (v : string) (l : list string) : mem v l = false <-> ~ In v l.
Proof.
  rewrite <- mem_In. destruct (mem v l); split; congruence.
Qed.

Lemma dropna_In (s : list (option string)) (v : string) :
  In v (dropna s) <-> In (Some v) s.
Proof.
  induction s as [| [w |] s IH]; simpl.
  - tauto.
  - rewrite IH. split; intros [H | H]; auto; left; congruence.
  - rewrite IH. split; [auto | intros [H | H]; [discriminate | auto]].
Qed.

Lemma unique_from_In (s seen : list string) (x : string) :
  In x (unique_from seen s) <-> In x s /\ ~ In x seen.
Proof.
  revert seen. induction s as [| v s IH]; intro seen; simpl.
  - tauto.
  - destruct (mem v seen) eqn:E.
    + apply mem_In in E. rewrite IH. split.
      * intros [H1 H2]. auto.
      * intros [[-> | H1] H2]; [contradiction | auto].
    + apply mem_false in E. simpl. rewrite IH. simpl. split.
      * intros [<- | [H1 H2]]; auto.
      * intros [[-> | H1] H2]; auto.
        destruct (string_dec v x) as [-> | N]; auto.
        right. split; auto. intros [H | H]; auto.
Qed.

Lemma unique_from_NoDup (s seen : list string) : NoDup (unique_from seen s).
Proof.
  revert seen. induction s as [| v s IH]; intro seen; simpl.
  - constructor.
  - destruct (mem v seen) eqn:E; auto.
    constructor; auto.
    rewrite unique_from_In. simpl. tauto.
Qed.

Lemma unique_In (s : list string) (x : string) : In x (unique s) <-> In x s.
Proof. unfold unique. rewrite unique_from_In. simpl. tauto. Qed.

Lemma unique_NoDup (s : list string) : NoDup (unique s).
Proof. apply unique_from_NoDup. Qed.

Lemma isin_true (c : option string) (values : list string) :
  isin c values = true <-> exists v, c = Some v /\ In v values.
Proof.
  destruct c as [v |]; simpl.
  - rewrite mem_In. split.
    + intro H. now exists v.
    + intros [w [E H]]. now inversion E; subst.
  - split; [discriminate | intros [v [E _]]; discriminate].
Qed.

End Facts.

Module KeptFacts.




End KeptFacts.

(* ===================================================================== *)
(** ** Currency normalisation: what a bad value does                      *)
(* ===================================================================== *)

Module LoaderProofs.

Import Loader.

Lemma mapM_numeric (cast : string -> option num) (xs : list num) :
  mapM (astype_float_cell cast) (map RNum xs) = Ok xs.
Proof.
  induction xs as [| x xs IH]; simpl.
  - reflexivity.
  - rewrite IH. reflexivity.
Qed.

Lemma mapM_integers (cast : string -> option num) (zs : list Z) :
  mapM (astype_float_cell cast) (map RInt zs) = Ok (map float_of_int zs).
Proof.
  induction zs as [| z zs IH]; simpl.
  - reflexivity.
  - rewrite IH. reflexivity.
Qed.

Lemma mapM_raises (cast : string -> option num) (col : list raw) (s : string) :
  In (RStr s) col -> cast s = None ->
  exists s', mapM (astype_float_cell cast) col = Raise (ValueError s')
             /\ In (RStr s') col /\ cast s' = None.
Proof.
  induction col as [| c col IH]; intros Hin Hs.
  - destruct Hin.
  - simpl. destruct c as [t | x | z]; simpl.
    + destruct (cast t) eqn:E.
      * destruct Hin as [Heq | Hin]; [inversion Heq; congruence |].
        destruct (IH Hin Hs) as [s' [R [I N]]].
        exists s'. rewrite R. simpl. auto.
      * exists t. simpl. auto.
    + destruct Hin as [Heq | Hin]; [discriminate |].
      destruct (IH Hin Hs) as [s' [R [I N]]].
      exists s'. rewrite R. simpl. auto.
    + destruct Hin as [Heq | Hin]; [discriminate |].
      destruct (IH Hin Hs) as [s' [R [I N]]].
      exists s'. rewrite R. simpl. auto.
Qed.

(** Integers of at most 53 bits, and 2^53 itself, are floats. *)
Lemma round_to_53_bits_exact (z : Z) :
  (Z.abs z <= 2 ^ 53)%Z -> round_to_53_bits z = z.
Proof.
  intro H. destruct (Z.eq_dec (Z.abs z) (2 ^ 53)) as [E | N].
  - destruct (Z.abs_eq_or_opp z) as [A | A]; rewrite A in E.
    + subst z. vm_compute. reflexivity.
    + assert (Hz : z = (- 2 ^ 53)%Z) by lia. subst z. vm_compute. reflexivity.
  - unfold round_to_53_bits.
    assert (Hb : (Z.log2 (Z.abs z) + 1 <=? 53)%Z = true).
    { apply Z.leb_le. destruct (Z.eq_dec (Z.abs z) 0) as [Z0 | NZ].
      - rewrite Z0. simpl. lia.
      - assert (Hlt : (Z.log2 (Z.abs z) < 53)%Z); [| lia].
        apply Z.log2_lt_pow2; lia. }
    now rewrite Hb.
Qed.

(** C9, as the script has it.  Whatever [float] does on strings: a float
    column comes back as it is, and an integer column comes back as the
    nearest floats, which are the integers themselves up to 2^53 in
    magnitude; and as soon as one str cell does not parse once [$] and [,]
    are removed, the conversion of the whole column raises the ValueError
    of the first such cell, so no column is produced: nothing is excluded,
    nulled or set to 0, and the lines after the conversion are not
    reached. *)
Theorem normalize_amount_numeric_or_raises (cast : string -> option num) :
  (forall xs, normalize_amount cast (map RNum xs) = Ok xs)
  /\ (forall zs,
        normalize_amount cast (map RInt zs) = Ok (map float_of_int zs)
        /\ forall z, In z zs -> (Z.abs z <= 2 ^ 53)%Z ->
                      float_of_int z = Fin (inject_Z z))
  /\ (forall col s,
        In (RStr s) col -> cast (strip_currency s) = None ->
        exists s', normalize_amount cast col = Raise (ValueError s')
                   /\ cast s' = None).
Proof.
  split; [| split].
  - intro xs. unfold normalize_amount.
    rewrite map_map. simpl. change (fun x => RNum x) with RNum.
    apply mapM_numeric.
  - intro zs. split.
    + unfold normalize_amount.
      rewrite map_map. simpl. change (fun z => RInt z) with RInt.
      apply mapM_integers.
    + intros z _ Hz. unfold float_of_int.
      now rewrite round_to_53_bits_exact.
  - intros col s Hin Hs. unfold normalize_amount.
    assert (Hin' : In (RStr (strip_currency s)) (map replace_cell col)).
    { apply in_map_iff. exists (RStr s). split; [reflexivity | exact Hin]. }
    destruct (mapM_raises cast _ _ Hin' Hs) as [s' [R [_ N]]].
    exists s'. auto.
Qed.

(** C9 fails as stated: a column of currency text with one value that is
    no number (and no missing-value marker of the reader) makes the
    conversion raise; no column is produced, so the failure is not local
    to the row and the rest of the load does not go through.  The same
    holds for every column with such a cell and every reading of
    [float]. *)
Lemma normalize_amount_bad_cell_aborts :
  plain_decimal (strip_currency "unknown") = None
  /\ normalize_amount plain_decimal
       [RStr "$1,250.50"; RStr "unknown"; RStr "7"]
     = Raise (ValueError "unknown")
  /\ ~ (exists (cast : string -> option num) col s amounts,
          In (RStr s) col /\ cast (strip_currency s) = None
          /\ normalize_amount cast col = Ok amounts).
Proof.
  split; [reflexivity |].
  split; [vm_compute; reflexivity |].
  intros [cast [col [s [amounts [Hin [Hs Hok]]]]]].
  unfold normalize_amount in Hok.
  assert (Hin' : In (RStr (strip_currency s)) (map replace_cell col)).
  { apply in_map_iff. exists (RStr s). split; [reflexivity | exact Hin]. }
  destruct (mapM_raises cast _ _ Hin' Hs) as [s' [R _]].
  rewrite R in Hok. discriminate.
Qed.

Lemma normalize_amount_numeric_or_raises_witness :
  normalize_amount plain_decimal (map RNum [Fin 3; NaN]) = Ok [Fin 3; NaN]
  /\ normalize_amount plain_decimal (map RInt [7; 9007199254740993]%Z)
     = Ok [Fin 7; Fin 9007199254740992]
  /\ float_of_int 9007199254740992 = Fin 9007199254740992
  /\ exists s', normalize_amount plain_decimal [RStr "$12.50"; RStr "$abc"]
                = Raise (ValueError s')
                /\ plain_decimal s' = None.
Proof.
  destruct (normalize_amount_numeric_or_raises plain_decimal)
    as [Hnum [Hint Hbad]].
  split; [apply Hnum |].
  destruct (Hint [7; 9007199254740993]%Z) as [Hrun _].
  split; [exact Hrun |].
  destruct (Hint [9007199254740992]%Z) as [_ Hsmall].
  split.
  - apply Hsmall; [simpl; auto | vm_compute; discriminate].
  - apply (Hbad [RStr "$12.50"; RStr "$abc"] "$abc").
    + simpl. auto.
    + reflexivity.
Defined.

End LoaderProofs.

(* ===================================================================== *)
(** ** Sidebar filters                                                    *)
(* ===================================================================== *)

Module SidebarProofs.

Import Series Sidebar Facts Samples.

Lemma filter_all (A : Type) (l : list A) : filter (fun _ => true) l = l.
Proof. induction l as [| x l IH]; simpl; congruence. Qed.

Lemma filter_twice (A : Type) (f g : A -> bool) (l : list A) :
  filter g (filter f l) = filter (fun x => f x && g x) l.
Proof.
  induction l as [| x l IH]; simpl; [reflexivity |].
  destruct (f x); simpl; [destruct (g x) |]; congruence.
Qed.

Lemma truthy_false (A : Type) (l : list A) : truthy l = false <-> l = [].
Proof. destruct l; simpl; split; congruence. Qed.

Lemma filter_step_ok (col : string) (values : list string) (fdf : DataFrame) :
  (values <> [] -> has_column fdf col = true) ->
  filter_step col values fdf
  = Ok (mkFrame (columns fdf)
                (filter (fun r => allowed values (cell col r)) (rows fdf))).
Proof.
  intro H. unfold filter_step, keep_isin.
  destruct values as [| v values]; simpl.
  - rewrite filter_all. now destruct fdf.
  - rewrite H by discriminate. reflexivity.
Qed.

Lemma passes_iff (sel : Selection) (r : Row) :
  passes sel r = true
  <-> forall a, selected sel a <> [] ->
                exists v, cell (column_name a) r = Some v
                          /\ In v (selected sel a).
Proof.
  unfold passes. rewrite forallb_forall. split.
  - intros H a Ha. apply isin_true.
    assert (Hin : In a all_filterable) by (destruct a; simpl; auto).
    specialize (H a Hin). unfold allowed in H.
    destruct (selected sel a); [congruence | exact H].
  - intros H a _. unfold allowed.
    destruct (selected sel a) eqn:E; [reflexivity |].
    apply isin_true. rewrite <- E. apply H. congruence.
Qed.

Lemma filtered_df_rows (df : DataFrame) (sel : Selection) :
  selection_fits df sel ->
  filtered_df df sel
  = Ok (mkFrame (columns df) (filter (passes sel) (rows df))).
Proof.
  intro Hfit. unfold filtered_df. simpl.
  rewrite (filter_step_ok "Purchase_Channel") by (apply (Hfit Channel)).
  simpl.
  rewrite (filter_step_ok "Purchase_Category") by (apply (Hfit Category)).
  simpl.
  rewrite (filter_step_ok "Gender") by (apply (Hfit Gender_)).
  simpl.
  rewrite (filter_step_ok "Income_Level") by (apply (Hfit Income)).
  simpl. rewrite !filter_twice. f_equal. f_equal.
  apply filter_ext. intro r. unfold passes. simpl.
  rewrite andb_true_r, !andb_assoc. reflexivity.
Qed.

(** C3.  For every frame and every selection the sidebar can hand over,
    the filter returns the frame's rows, in their order, that pass every
    attribute with a non-empty allowed set by membership; an attribute
    with an empty set asks nothing, and when all four are empty the frame
    comes back unchanged. *)
Theorem filtered_df_retains_members (df : DataFrame) (sel : Selection) :
  selection_fits df sel ->
  filtered_df df sel
  = Ok (mkFrame (columns df) (filter (passes sel) (rows df)))
  /\ (forall r,
        In r (filter (passes sel) (rows df))
        <-> In r (rows df)
            /\ forall a, selected sel a <> [] ->
                         exists v, cell (column_name a) r = Some v
                                   /\ In v (selected sel a))
  /\ ((forall a, selected sel a = []) -> filtered_df df sel = Ok df).
Proof.
  intro Hfit. split; [now apply filtered_df_rows |]. split.
  - intro r. rewrite filter_In, passes_iff. reflexivity.
  - intro Hempty. rewrite filtered_df_rows by exact Hfit.
    rewrite (filter_ext (passes sel) (fun _ => true)).
    + rewrite filter_all. now destruct df.
    + intro r. apply passes_iff. intros a Ha. now rewrite Hempty in Ha.
Qed.

Lemma online_only_fits :
  selection_fits two_channels (mkSelection ["Online"] [] [] []).
Proof. intros a _. destruct a; reflexivity. Defined.

Lemma filtered_df_retains_members_witness :
  filtered_df two_channels (mkSelection ["Online"] [] [] [])
  = Ok (mkFrame all_columns [sample_row (Some "F") (Some "Online")]).
Proof.
  destruct (filtered_df_retains_members two_channels
              (mkSelection ["Online"] [] [] []) online_only_fits) as [H _].
  exact H.
Defined.

End SidebarProofs.

(* ===================================================================== *)
(** ** The default selection and null cells                               *)
(* ===================================================================== *)

Module DefaultsProofs.

Import Series Sidebar Facts SidebarProofs Samples.

Lemma get_options_In (df : DataFrame) (col v : string) :
  In v (get_options df col)
  <-> has_column df col = true
      /\ exists r, In r (rows df) /\ cell col r = Some v.
Proof.
  unfold get_options. destruct (has_column df col).
  - rewrite sorted_In, unique_In, dropna_In, in_map_iff. split.
    + intros [r [E H]]. split; [reflexivity | now exists r].
    + intros [_ [r [H E]]]. now exists r.
  - simpl. split; [tauto | intros [H _]; discriminate].
Qed.

Lemma get_options_NoDup (df : DataFrame) (col : string) :
  NoDup (get_options df col).
Proof.
  unfold get_options. destruct (has_column df col).
  - apply sorted_NoDup, unique_NoDup.
  - constructor.
Qed.

Lemma default_selected (df : DataFrame) (a : filterable) :
  selected (default_selection df) a = get_options df (column_name a).
Proof. destruct a; reflexivity. Qed.

Lemma default_selection_fits (df : DataFrame) :
  selection_fits df (default_selection df).
Proof.
  intros a Ha. rewrite default_selected in Ha.
  destruct (get_options df (column_name a)) as [| v l] eqn:E; [congruence |].
  assert (Hin : In v (get_options df (column_name a))) by (rewrite E; now left).
  apply get_options_In in Hin. tauto.
Qed.

Lemma filter_drops (A : Type) (f : A -> bool) (l : list A) (x : A) :
  In x l -> f x = false -> filter f l <> l.
Proof.
  intros Hin Hf E. rewrite <- E in Hin. apply filter_In in Hin.
  destruct Hin as [_ H]. congruence.
Qed.

(** C10, with the side condition it needs.  For a filterable column the
    frame has, the default selection holds exactly the distinct non-null
    values of the column; and when the column has at least one non-null
    value, every row with a null in it is left out by the default filter,
    so the filtered frame is not the original one. *)
Theorem default_selection_drops_null_rows (df : DataFrame) (a : filterable) :
  has_column df (column_name a) = true ->
  (forall v, In v (selected (default_selection df) a)
             <-> exists r, In r (rows df) /\ cell (column_name a) r = Some v)
  /\ NoDup (selected (default_selection df) a)
  /\ (forall r,
        In r (rows df) ->
        cell (column_name a) r = None ->
        (exists r' v, In r' (rows df) /\ cell (column_name a) r' = Some v) ->
        exists fdf,
          filtered_df df (default_selection df) = Ok fdf
          /\ ~ In r (rows fdf)
          /\ rows fdf <> rows df).
Proof.
  intro Hcol. split; [| split].
  - intro v. rewrite default_selected, get_options_In. rewrite Hcol. tauto.
  - rewrite default_selected. apply get_options_NoDup.
  - intros r Hr Hnull [r' [v [Hr' Hv]]].
    exists (mkFrame (columns df)
                    (filter (passes (default_selection df)) (rows df))).
    assert (Hfail : passes (default_selection df) r = false).
    { destruct (passes (default_selection df) r) eqn:E; [| reflexivity].
      rewrite passes_iff in E.
      destruct (E a) as [w [Hw _]]; [| congruence].
      rewrite default_selected. intro Hnil.
      assert (Hin : In v (get_options df (column_name a))).
      { apply get_options_In. split; [exact Hcol | now exists r']. }
      rewrite Hnil in Hin. destruct Hin. }
    split; [apply filtered_df_rows, default_selection_fits |]. simpl. split.
    + rewrite filter_In. intros [_ H]. congruence.
    + now apply filter_drops with (x := r).
Qed.

(** C10 fails as stated when a filterable column holds nothing but nulls:
    its option list is empty, no filter is applied on it, and the rows
    with the null stay; the default selection reproduces the frame. *)
Lemma default_selection_keeps_all_null_column :
  (forall r, In r (rows gender_unrecorded) -> Gender r = None)
  /\ filtered_df gender_unrecorded (default_selection gender_unrecorded)
     = Ok gender_unrecorded.
Proof.
  split.
  - intros r [<- | [<- | []]]; reflexivity.
  - vm_compute. reflexivity.
Qed.

Lemma default_selection_drops_null_rows_witness :
  exists fdf,
    filtered_df gender_partly_recorded (default_selection gender_partly_recorded)
    = Ok fdf
    /\ ~ In (sample_row None (Some "Online")) (rows fdf)
    /\ rows fdf <> rows gender_partly_recorded.
Proof.
  destruct (default_selection_drops_null_rows gender_partly_recorded Gender_
              eq_refl) as [_ [_ H]].
  apply (H (sample_row None (Some "Online"))).
  - simpl. auto.
  - reflexivity.
  - exists (sample_row (Some "F") (Some "Store")), "F". simpl. auto.
Defined.

End DefaultsProofs.

(* ===================================================================== *)
(** ** KPI scalars on an empty frame                                      *)
(* ===================================================================== *)

Module KpiProofs.

Import Metrics Samples.

(** C4, as the script has it.  On a frame without rows, [avg_purchase] is
    NaN when the amount column is there (the mean of no values) and is 0
    only when the column is missing; either way a value comes back and
    nothing is raised. *)
Theorem avg_purchase_no_rows (fdf : DataFrame) :
  rows fdf = [] ->
  avg_purchase fdf
  = if has_column fdf "Purchase_Amount" then NaN else Fin 0.
Proof.
  intro H. unfold avg_purchase. rewrite H. reflexivity.
Qed.

(** C4 fails as stated: the empty frame with its amount column gives NaN,
    not 0. *)
Lemma avg_purchase_empty_not_zero :
  avg_purchase no_rows = NaN /\ avg_purchase no_rows <> Fin 0.
Proof.
  split; [reflexivity | discriminate].
Qed.

Lemma avg_purchase_no_rows_witness :
  avg_purchase no_rows = NaN
  /\ avg_purchase (mkFrame ["Gender"] []) = Fin 0.
Proof.
  split.
  - apply (avg_purchase_no_rows no_rows). reflexivity.
  - apply (avg_purchase_no_rows (mkFrame ["Gender"] [])). reflexivity.
Defined.

End KpiProofs.

(* ===================================================================== *)
(** ** The recommendation rule                                            *)
(* ===================================================================== *)

Module RecProofs.

Import Insights.

Lemma gt_exceeds (a b : num) : gt a b = true <-> exceeds a b.
Proof.
  destruct a as [x |], b as [y |]; simpl;
    try (split; [discriminate | tauto]).
  unfold Qlt_bool. rewrite negb_true_iff. split.
  - intro H. apply Qnot_le_lt. intro L. apply Qle_bool_iff in L. congruence.
  - intro H. destruct (Qle_bool x y) eqn:E; [| reflexivity].
    apply Qle_bool_iff in E. exfalso. exact (Qlt_not_le _ _ H E).
Qed.

Lemma gt_not_exceeds (a b : num) : gt a b = false <-> ~ exceeds a b.
Proof.
  rewrite <- gt_exceeds. destruct (gt a b); split; congruence.
Qed.

Lemma labels_distinct :
  rec_high_value <> rec_premium /\ rec_high_value <> rec_frequent
  /\ rec_high_value <> rec_value /\ rec_premium <> rec_frequent
  /\ rec_premium <> rec_value /\ rec_frequent <> rec_value.
Proof.
  repeat split; intro H;
    apply (f_equal (fun s => String.length s)) in H; vm_compute in H;
    discriminate.
Qed.

(** C7.  The recommendation is one of four pairwise different texts, and
    each of them is given exactly under its own condition: the first when
    both segment means exceed the overall means, the second when only the
    amount does, the third when only the frequency does, the last when
    neither does. *)
Theorem rec_exactly_one_branch (a f oa of_ : num) :
  (rec a f oa of_ = rec_high_value <-> exceeds a oa /\ exceeds f of_)
  /\ (rec a f oa of_ = rec_premium <-> exceeds a oa /\ ~ exceeds f of_)
  /\ (rec a f oa of_ = rec_frequent <-> ~ exceeds a oa /\ exceeds f of_)
  /\ (rec a f oa of_ = rec_value <-> ~ exceeds a oa /\ ~ exceeds f of_).
Proof.
  destruct labels_distinct as [D1 [D2 [D3 [D4 [D5 D6]]]]].
  rewrite <- !gt_exceeds. unfold rec.
  destruct (gt a oa), (gt f of_); simpl;
    repeat split; try congruence; try tauto;
    intros [H1 H2]; congruence.
Qed.

End RecProofs.

(* ===================================================================== *)
(** ** The most frequent product category                                 *)
(* ===================================================================== *)

Module ModeProofs.

Import Series Insights Facts Samples.

Lemma count_pos (v : string) (l : list string) :
  In v l -> (0 < count v l)%nat.
Proof.
  intro H. unfold count.
  assert (Hin : In v (filter (String.eqb v) l)).
  { apply filter_In. split; [exact H | apply String.eqb_refl]. }
  destruct (filter (String.eqb v) l); [destruct Hin | simpl; lia].
Qed.

Lemma count_absent (v : string) (l : list string) :
  ~ In v l -> count v l = 0%nat.
Proof.
  intro H. unfold count.
  destruct (filter (String.eqb v) l) as [| x t] eqn:E; [reflexivity |].
  exfalso. apply H.
  assert (Hin : In x (filter (String.eqb v) l)) by (rewrite E; now left).
  apply filter_In in Hin. destruct Hin as [Hx Heq].
  apply String.eqb_eq in Heq. now subst.
Qed.

Lemma count_le_max (keys l : list string) (k : string) :
  In k keys -> (count k l <= max_count keys l)%nat.
Proof.
  induction keys as [| k' keys IH]; simpl; [tauto |].
  intros [-> | H]; [lia |]. specialize (IH H). lia.
Qed.

Lemma max_attained (keys l : list string) :
  keys <> [] -> exists k, In k keys /\ count k l = max_count keys l.
Proof.
  induction keys as [| k keys IH]; [congruence |]. intros _. simpl.
  destruct keys as [| k' keys'].
  - exists k. simpl. split; [auto | lia].
  - destruct IH as [j [Hj Ej]]; [discriminate |].
    destruct (Nat.le_ge_cases (count k l) (max_count (k' :: keys') l)).
    + exists j. split; [now right |]. rewrite Ej. lia.
    + exists k. split; [now left | lia].
Qed.

Lemma mode_head (s : list (option string)) (v : string) :
  In (Some v) s ->
  exists c rest,
    mode s = c :: rest
    /\ modal c (dropna s)
    /\ forall c', modal c' (dropna s) -> (c <=? c') = true.
Proof.
  intro Hv. unfold mode.
  set (vals := dropna s). set (keys := unique vals).
  set (m := max_count keys vals).
  set (modes := filter (fun k => Nat.eqb (count k vals) m) keys).
  assert (Hvals : In v vals) by (now apply dropna_In).
  assert (Hkeys : keys <> []).
  { intro E. assert (H : In v keys) by (now apply unique_In).
    rewrite E in H. destruct H. }
  destruct (max_attained keys vals Hkeys) as [k [Hk Ek]].
  assert (Hmodes : In k modes).
  { apply filter_In. split; [exact Hk |]. apply Nat.eqb_eq. exact Ek. }
  destruct (sorted modes) as [| c rest] eqn:E.
  - apply (proj1 (sorted_nil_iff modes)) in E. rewrite E in Hmodes.
    destruct Hmodes.
  - exists c, rest. split; [reflexivity |].
    assert (Hc : In c modes).
    { apply sorted_In. rewrite E. now left. }
    apply filter_In in Hc. destruct Hc as [Hc Hm]. apply Nat.eqb_eq in Hm.
    assert (Hcv : In c vals) by (now apply unique_In).
    split; [split; [exact Hcv |] |].
    + intro x. rewrite Hm.
      destruct (in_dec string_dec x vals) as [Hx | Hx].
      * apply count_le_max. now apply unique_In.
      * rewrite (count_absent x vals Hx). lia.
    + intros c' [Hc' Hmax].
      apply (sorted_head_least modes c rest E).
      apply filter_In. split; [now apply unique_In |].
      apply Nat.eqb_eq.
      assert (count c' vals <= m)%nat
        by (apply count_le_max; now apply unique_In).
      specialize (Hmax c). fold vals in Hmax. lia.
Qed.

(** C6, as the script has it.  On a segment with at least one non-null
    product category, [top_category] returns a value of highest count,
    and among the values of highest count it returns the one that comes
    first in the order of the labels, since [mode()] hands its values
    over sorted. *)
Theorem top_category_least_modal (seg : DataFrame) :
  has_column seg "Product_Category" = true ->
  (exists r v, In r (rows seg) /\ Product_Category r = Some v) ->
  exists c,
    top_category seg = Ok c
    /\ modal c (dropna (map Product_Category (rows seg)))
    /\ forall c', modal c' (dropna (map Product_Category (rows seg))) ->
                  (c <=? c') = true.
Proof.
  intros Hcol [r [v [Hr Hv]]].
  assert (Hin : In (Some v) (map Product_Category (rows seg))).
  { apply in_map_iff. now exists r. }
  destruct (mode_head _ v Hin) as [c [rest [E [Hm Hl]]]].
  exists c. unfold top_category, require. rewrite Hcol. simpl.
  rewrite E. simpl. auto.
Qed.

(** C6 fails as stated: with two categories tied, the one met first in
    row order is "Shoes" and the script answers "Books". *)
Lemma top_category_not_first_encountered :
  first_encountered_mode (map Product_Category (rows shoes_then_books))
  = Some "Shoes"
  /\ top_category shoes_then_books = Ok "Books".
Proof.
  split; vm_compute; reflexivity.
Qed.

Lemma top_category_least_modal_witness :
  exists c,
    top_category shoes_then_books = Ok c
    /\ modal c (dropna (map Product_Category (rows shoes_then_books)))
    /\ forall c', modal c' (dropna (map Product_Category (rows shoes_then_books))) ->
                  (c <=? c') = true.
Proof.
  apply (top_category_least_modal shoes_then_books).
  - reflexivity.
  - exists (category_row "High" "Shoes" 10 1), "Shoes". simpl. auto.
Defined.

End ModeProofs.

(* ===================================================================== *)
(** ** The segment matcher                                                *)
(* ===================================================================== *)

Module MatcherProofs.

Import Series Insights Facts Samples.

Lemma has_column_truthy (df : DataFrame) (col : string) :
  has_column df col = true -> truthy (columns df) = true.
Proof.
  unfold has_column. destruct (columns df); [discriminate | reflexivity].
Qed.

Lemma user_segment_exact (df : DataFrame) (p : Profile) :
  has_keys df ->
  filter (exact_match p) (rows df) <> [] ->
  user_segment df p = ([], Ok (select (exact_match p) df)).
Proof.
  intros [HA [HI HC]] Hne. unfold user_segment, require.
  rewrite HA, HI, HC. simpl. unfold empty. simpl.
  rewrite (has_column_truthy df "Age" HA).
  destruct (filter (exact_match p) (rows df)); [congruence | reflexivity].
Qed.

Lemma user_segment_fallback (df : DataFrame) (p : Profile) :
  has_keys df ->
  filter (exact_match p) (rows df) = [] ->
  user_segment df p
  = ([Warning no_exact_match], Ok (select (income_match p) df)).
Proof.
  intros [HA [HI HC]] He. unfold user_segment, require.
  rewrite HA, HI, HC. simpl. unfold empty. simpl.
  rewrite He. reflexivity.
Qed.


Lemma top_category_no_rows (seg : DataFrame) :
  has_column seg "Product_Category" = true ->
  rows seg = [] ->
  top_category seg = Raise (KeyError "0").
Proof.
  intros Hcol Hrows. unfold top_category, require.
  rewrite Hcol, Hrows. reflexivity.
Qed.


Lemma statistics_no_rows (df seg : DataFrame) :
  has_column df "Purchase_Amount" = true ->
  has_column df "Product_Category" = true ->
  columns seg = columns df ->
  rows seg = [] ->
  statistics df seg = ([], Raise (KeyError "0")).
Proof.
  intros HA HP Hcols Hrows.
  assert (Htop : top_category seg = Raise (KeyError "0")).
  { apply top_category_no_rows; [| exact Hrows].
    unfold has_column in *. now rewrite Hcols. }
  unfold statistics, column_mean, require, has_column in *.
  rewrite Hcols, HA, Htop. reflexivity.
Qed.



Lemma insights_no_match_raises (df : DataFrame) (p : Profile) :
  has_keys df ->
  has_column df "Purchase_Amount" = true ->
  has_column df "Product_Category" = true ->
  filter (exact_match p) (rows df) = [] ->
  filter (income_match p) (rows df) = [] ->
  insights df p = ([Warning no_exact_match], Raise (KeyError "0")).
Proof.
  intros Hkeys HA HP He Hi. unfold insights.
  rewrite (user_segment_fallback df p Hkeys He). simpl.
  rewrite (statistics_no_rows df (select (income_match p) df) HA HP eq_refl Hi).
  reflexivity.
Qed.

Lemma all_columns_keys (rs : list Row) :
  has_keys (mkFrame all_columns rs).
Proof. repeat split. Defined.



(** C2 at a frame read from a file that holds the header line only: the
    select boxes have nothing to offer, both subsets are empty, the page
    shows the closest-matches warning and line 247 raises on the empty
    result of [mode()]. *)
Theorem insights_without_rows_raises :
  insights no_rows (mkProfile None None None)
  = ([Warning no_exact_match], Raise (KeyError "0")).
Proof.
  apply insights_no_match_raises; try reflexivity.
  apply all_columns_keys.
Qed.

End MatcherProofs.

(* ===================================================================== *)
(** ** Revenue by category                                                *)
(* ===================================================================== *)

Module RevenueProofs.

Import Series Metrics Facts Samples.

Lemma amount_geb_descending (a b : string * Q) :
  amount_geb a b = true <-> descending a b.
Proof. unfold amount_geb, descending. apply Qle_bool_iff. Qed.



Lemma insert_stable_perm (x : string * Q) (l : list (string * Q)) :
  Permutation (x :: l) (insert_stable x l).
Proof.
  induction l as [| y t IH]; simpl.
  - reflexivity.
  - destruct (amount_geb x y); [reflexivity |].
    eapply Permutation_trans; [apply perm_swap |]. now apply perm_skip.
Qed.

Lemma sort_stable_perm (l : list (string * Q)) :
  Permutation l (sort_stable l).
Proof.
  induction l as [| x l IH]; simpl.
  - reflexivity.
  - eapply Permutation_trans; [apply perm_skip, IH |].
    apply insert_stable_perm.
Qed.

Lemma amount_then_label_descending (a b : string * Q) :
  amount_then_label a b -> descending a b.
Proof.
  unfold descending. intros [H | [H _]].
  - now apply Qlt_le_weak.
  - rewrite H. apply Qle_refl.
Qed.

Lemma insert_stable_ordered (x : string * Q) (l : list (string * Q)) :
  StronglySorted amount_then_label l ->
  Forall (fun y => (fst x <=? fst y) = true) l ->
  StronglySorted amount_then_label (insert_stable x l).
Proof.
  induction l as [| y t IH]; intros Hs Hx; simpl.
  - repeat constructor.
  - inversion Hs as [| ? ? Hst Hy]; subst.
    inversion Hx as [| ? ? Hxy Hxt]; subst.
    destruct (amount_geb x y) eqn:E.
    + apply amount_geb_descending in E. unfold descending in E.
      assert (Hfirst : amount_then_label x y).
      { destruct (Qlt_le_dec (snd y) (snd x)) as [L | L]; [now left |].
        right. split; [now apply Qle_antisym | exact Hxy]. }
      constructor; [exact Hs |]. constructor; [exact Hfirst |].
      rewrite Forall_forall in *. intros z Hz.
      pose proof (amount_then_label_descending _ _ (Hy z Hz)) as Hyz.
      unfold descending in Hyz.
      destruct (Qlt_le_dec (snd z) (snd x)) as [L | L]; [now left |].
      right. split; [| now apply Hxt].
      apply Qle_antisym; [exact L |]. eapply Qle_trans; eauto.
    + constructor; [now apply IH |].
      assert (Hyx : (snd x < snd y)%Q).
      { apply Qnot_le_lt. intro L. apply amount_geb_descending in L.
        congruence. }
      rewrite Forall_forall in *. intros z Hz.
      apply (Permutation_in _ (Permutation_sym (insert_stable_perm x t))) in Hz.
      destruct Hz as [<- | Hz]; [now left | now apply Hy].
Qed.

Lemma sort_stable_ordered (l : list (string * Q)) :
  StronglySorted (fun a b => (fst a <=? fst b) = true) l ->
  StronglySorted amount_then_label (sort_stable l).
Proof.
  induction 1 as [| x l Hs IH Hx]; simpl.
  - constructor.
  - apply insert_stable_ordered; [exact IH |].
    rewrite Forall_forall in *. intros y Hy. apply Hx.
    eapply Permutation_in; [apply Permutation_sym, sort_stable_perm | exact Hy].
Qed.

Lemma sort_stable_contract : sort_contract sort_stable.
Proof.
  intro l. split; [apply sort_stable_perm |].
  induction l as [| x l IH]; simpl; [constructor |].
  generalize dependent (sort_stable l). intros t Ht.
  induction Ht as [| y t Hs IHt Hy]; simpl.
  - repeat constructor.
  - destruct (amount_geb x y) eqn:E.
    + apply amount_geb_descending in E.
      constructor; [now constructor |]. constructor; [exact E |].
      rewrite Forall_forall in *. intros z Hz. unfold descending in *.
      eapply Qle_trans; [apply (Hy z Hz) | exact E].
    + constructor; [exact IHt |].
      rewrite Forall_forall in *. intros z Hz.
      apply (Permutation_in _ (Permutation_sym (insert_stable_perm x t))) in Hz.
      destruct Hz as [<- | Hz]; [| now apply Hy].
      unfold descending. apply Qlt_le_weak, Qnot_le_lt. intro L.
      apply amount_geb_descending in L. congruence.
Qed.

Lemma ordered_ties_by_label (l : list (string * Q)) :
  StronglySorted amount_then_label l -> ties_by_label l.
Proof.
  induction 1 as [| a l Hs IH Ha]; simpl; [exact I |].
  destruct l as [| b t]; [exact I |]. split; [| exact IH].
  intro E. inversion Ha as [| ? ? Hab _]; subst.
  destruct Hab as [L | [_ L]]; [| exact L].
  rewrite E in L. exfalso. exact (Qlt_irrefl _ L).
Qed.



Lemma groupby_sum_keys (rs : list Row) :
  map fst (groupby_sum rs) = group_keys rs.
Proof.
  unfold groupby_sum. rewrite map_map. simpl. apply map_id.
Qed.


(** Were the sort stable, equal revenues would come in label order, since
    [groupby] hands the categories over sorted by label. *)
Lemma category_rev_stable_ties_by_label (fdf : DataFrame) :
  ties_by_label (sort_stable (groupby_sum (rows fdf))).
Proof.
  apply ordered_ties_by_label, sort_stable_ordered.
  assert (H : StronglySorted (fun a b => (a <=? b) = true)
                (map fst (groupby_sum (rows fdf)))).
  { rewrite groupby_sum_keys. apply sorted_ascending. }
  induction (groupby_sum (rows fdf)) as [| x l IH]; [constructor |].
  simpl in H. inversion H as [| ? ? Hs Hx]; subst.
  constructor; [now apply IH |].
  rewrite Forall_forall in *. intros y Hy. apply Hx. now apply in_map.
Qed.




End RevenueProofs.

(* ===================================================================== *)
(** ** Category sums against total revenue                                *)
(* ===================================================================== *)

Module ConservationProofs.

Import Series Metrics Facts RevenueProofs KeptFacts Samples.









End ConservationProofs.

(* ===================================================================== *)
(** ** Means of columns without values                                    *)
(* ===================================================================== *)

Module MeanProofs.

Import Series Metrics Samples.

Lemma finite_In (s : list num) (q : Q) : In q (finite s) <-> In (Fin q) s.
Proof.
  induction s as [| [x |] s IH]; simpl.
  - tauto.
  - rewrite IH. split; intros [H | H]; auto; left; congruence.
  - rewrite IH. split; [auto | intros [H | H]; [discriminate | auto]].
Qed.

Lemma finite_nil_iff (s : list num) :
  finite s = [] <-> forall x, In x s -> x = NaN.
Proof.
  split.
  - intros E [q |] Hx; [| reflexivity].
    apply finite_In in Hx. rewrite E in Hx. destruct Hx.
  - intro H. destruct (finite s) as [| q l] eqn:E; [reflexivity |].
    assert (Hq : In (Fin q) s) by (apply finite_In; rewrite E; now left).
    apply H in Hq. discriminate.
Qed.

Lemma mean_nan_iff (s : list num) :
  mean s = NaN <-> forall x, In x s -> x = NaN.
Proof.
  rewrite <- finite_nil_iff. unfold mean.
  destruct (finite s); split; congruence.
Qed.

(** Two purchases whose amount and frequency are missing. *)
Definition values_unrecorded : DataFrame :=
  mkFrame all_columns
          [mkRow (Some 30%Z) (Some "F") (Some "High") (Some "Online")
                 (Some "Books") (Some "Novels") NaN NaN NaN;
           mkRow (Some 41%Z) (Some "M") (Some "Low") (Some "Store")
                 (Some "Apparel") (Some "Shoes") NaN NaN NaN].

(** The two average cards show NaN whenever their column is present and
    no row of the frame carries a value in it: not only on a frame
    without rows, but also when every row left has a missing amount
    (frequency). *)
Theorem kpi_averages_nan_without_values (fdf : DataFrame) :
  (has_column fdf "Purchase_Amount" = true ->
   (forall r, In r (rows fdf) -> Purchase_Amount r = NaN) ->
   avg_purchase fdf = NaN)
  /\ (has_column fdf "Frequency_of_Purchase" = true ->
      (forall r, In r (rows fdf) -> Frequency_of_Purchase r = NaN) ->
      avg_frequency fdf = NaN).
Proof.
  split; intros Hcol H.
  - unfold avg_purchase. rewrite Hcol. apply mean_nan_iff.
    intros x Hx. apply in_map_iff in Hx. destruct Hx as [r [<- Hr]].
    now apply H.
  - unfold avg_frequency. rewrite Hcol. apply mean_nan_iff.
    intros x Hx. apply in_map_iff in Hx. destruct Hx as [r [<- Hr]].
    now apply H.
Qed.

Lemma kpi_averages_nan_without_values_witness :
  avg_purchase values_unrecorded = NaN
  /\ avg_frequency values_unrecorded = NaN.
Proof.
  destruct (kpi_averages_nan_without_values values_unrecorded) as [H1 H2].
  split.
  - apply H1; [reflexivity |].
    intros r [<- | [<- | []]]; reflexivity.
  - apply H2; [reflexivity |].
    intros r [<- | [<- | []]]; reflexivity.
Defined.

End MeanProofs.

(* ===================================================================== *)
(** ** More on the sidebar: options, errors, repeated and wider filters   *)
(* ===================================================================== *)

Module FilterProofs.

Import Series Sidebar Metrics Charts Facts SidebarProofs Samples.

Lemma ltb_of_leb (a b : string) :
  (a <=? b) = true -> a <> b -> (a <? b) = true.
Proof.
  unfold String.leb, String.ltb. intros H N.
  destruct (String.compare a b) eqn:E; try reflexivity; try discriminate.
  apply String.compare_eq_iff in E. contradiction.
Qed.

Lemma strictly_ascending (l : list string) :
  StronglySorted (fun a b => (a <=? b) = true) l -> NoDup l ->
  StronglySorted (fun a b => (a <? b) = true) l.
Proof.
  induction 1 as [| a l Hs IH Ha]; intro Hnd; constructor.
  - apply IH. now inversion Hnd.
  - inversion Hnd as [| ? ? Hnotin _]; subst.
    rewrite Forall_forall in *. intros b Hb.
    apply ltb_of_leb; [now apply Ha |]. intros ->. contradiction.
Qed.

(** The options of a multiselect come in strictly ascending label order,
    so none is listed twice, and a column the frame does not have offers
    no option at all. *)
Theorem get_options_strictly_ascending (df : DataFrame) (col : string) :
  StronglySorted (fun a b => (a <? b) = true) (get_options df col)
  /\ (has_column df col = false -> get_options df col = []).
Proof.
  unfold get_options. destruct (has_column df col).
  - split; [| discriminate].
    apply strictly_ascending; [apply sorted_ascending |].
    apply sorted_NoDup, unique_NoDup.
  - split; [constructor | reflexivity].
Qed.

Lemma get_options_strictly_ascending_witness :
  get_options two_channels "Purchase_Channel" = ["Online"; "Store"]
  /\ get_options two_channels "Brand_Loyalty" = [].
Proof.
  split; [vm_compute; reflexivity |].
  destruct (get_options_strictly_ascending two_channels "Brand_Loyalty")
    as [_ H].
  apply H. reflexivity.
Defined.

(** A non-empty selection on a column the frame does not have makes the
    filter raise the KeyError of such a column; no frame is returned. *)
Theorem filtered_df_missing_column (df : DataFrame) (sel : Selection)
  (a : filterable) :
  selected sel a <> [] ->
  has_column df (column_name a) = false ->
  exists b,
    filtered_df df sel = Raise (KeyError (column_name b))
    /\ selected sel b <> []
    /\ has_column df (column_name b) = false.
Proof.
  intros Ha Hmiss. destruct sel as [sc sg sn si].
  unfold filtered_df, filter_step, keep_isin, has_column in *. simpl in *.
  destruct sc as [| c sc];
    [| destruct (mem "Purchase_Channel" (columns df)) eqn:E1];
    simpl; try (exists Channel; simpl; rewrite ?E1; repeat split; congruence);
  (destruct sg as [| g sg];
    [| destruct (mem "Purchase_Category" (columns df)) eqn:E2];
    simpl; try (exists Category; simpl; rewrite ?E2; repeat split; congruence));
  (destruct sn as [| n sn];
    [| destruct (mem "Gender" (columns df)) eqn:E3];
    simpl; try (exists Gender_; simpl; rewrite ?E3; repeat split; congruence));
  (destruct si as [| i si];
    [| destruct (mem "Income_Level" (columns df)) eqn:E4];
    simpl; try (exists Income; simpl; rewrite ?E4; repeat split; congruence));
  destruct a; simpl in *; congruence.
Qed.

Lemma filtered_df_missing_column_witness :
  exists b,
    filtered_df (mkFrame ["Gender"] [sample_row (Some "F") (Some "Online")])
                (mkSelection ["Online"] [] ["F"] [])
    = Raise (KeyError (column_name b))
    /\ selected (mkSelection ["Online"] [] ["F"] []) b <> []
    /\ has_column (mkFrame ["Gender"] [sample_row (Some "F") (Some "Online")])
                  (column_name b) = false.
Proof.
  apply (filtered_df_missing_column _ _ Channel).
  - simpl. discriminate.
  - reflexivity.
Defined.

Lemma filter_again (A : Type) (f : A -> bool) (l : list A) :
  filter f (filter f l) = filter f l.
Proof.
  rewrite filter_twice. apply filter_ext. intro x. now destruct (f x).
Qed.

Lemma filter_shorter (A : Type) (f : A -> bool) (l : list A) :
  (List.length (filter f l) <= List.length l)%nat.
Proof.
  induction l as [| x l IH]; simpl; [lia |].
  destruct (f x); simpl; lia.
Qed.

Lemma filter_weaker (A : Type) (f g : A -> bool) (l : list A) :
  (forall x, f x = true -> g x = true) ->
  (List.length (filter f l) <= List.length (filter g l))%nat.
Proof.
  intro H. induction l as [| x l IH]; simpl; [lia |].
  destruct (f x) eqn:E.
  - rewrite (H x E). simpl. lia.
  - destruct (g x); simpl; lia.
Qed.

(** Filtering keeps the schema, never adds rows, and is idempotent:
    applying the same selection to the filtered frame changes nothing. *)
Theorem filtered_df_idempotent (df : DataFrame) (sel : Selection) :
  selection_fits df sel ->
  exists fdf,
    filtered_df df sel = Ok fdf
    /\ columns fdf = columns df
    /\ (List.length (rows fdf) <= List.length (rows df))%nat
    /\ filtered_df fdf sel = Ok fdf.
Proof.
  intro Hfit.
  exists (mkFrame (columns df) (filter (passes sel) (rows df))).
  split; [now apply filtered_df_rows |]. split; [reflexivity |].
  split; [apply filter_shorter |].
  rewrite filtered_df_rows by exact Hfit. simpl.
  now rewrite filter_again.
Qed.

Lemma filtered_df_idempotent_witness :
  exists fdf,
    filtered_df two_channels (mkSelection ["Online"] [] [] []) = Ok fdf
    /\ columns fdf = columns two_channels
    /\ (List.length (rows fdf) <= List.length (rows two_channels))%nat
    /\ filtered_df fdf (mkSelection ["Online"] [] [] []) = Ok fdf.
Proof.
  apply (filtered_df_idempotent two_channels). apply online_only_fits.
Defined.

(** One selection is at least as wide as another when, attribute by
    attribute, it asks nothing or allows every value the other allows,
    the other asking something too. *)
Definition at_least_as_wide (sel' sel : Selection) : Prop :=
  forall a, selected sel' a = []
            \/ (selected sel a <> [] /\ incl (selected sel a) (selected sel' a)).

Lemma passes_wider (sel sel' : Selection) (r : Row) :
  at_least_as_wide sel' sel -> passes sel r = true -> passes sel' r = true.
Proof.
  intros Hw. rewrite !passes_iff. intros H a Ha'.
  destruct (Hw a) as [E | [Ha Hincl]]; [congruence |].
  destruct (H a Ha) as [v [Hv Hin]]. exists v. split; [exact Hv |].
  now apply Hincl.
Qed.

(** Widening a selection never loses a row: adding values to an allowed
    set that is not empty, or clearing a set, keeps every row that
    passed before.  (Adding a first value to an empty set is not a
    widening: it turns a filter on.) *)
Theorem filtered_df_monotone (df : DataFrame) (sel sel' : Selection) :
  selection_fits df sel ->
  selection_fits df sel' ->
  at_least_as_wide sel' sel ->
  exists fdf fdf',
    filtered_df df sel = Ok fdf
    /\ filtered_df df sel' = Ok fdf'
    /\ incl (rows fdf) (rows fdf')
    /\ (List.length (rows fdf) <= List.length (rows fdf'))%nat.
Proof.
  intros Hfit Hfit' Hw.
  exists (mkFrame (columns df) (filter (passes sel) (rows df))),
         (mkFrame (columns df) (filter (passes sel') (rows df))).
  split; [now apply filtered_df_rows |].
  split; [now apply filtered_df_rows |]. simpl. split.
  - intros r Hr. apply filter_In in Hr. destruct Hr as [Hr Hp].
    apply filter_In. split; [exact Hr |]. now apply (passes_wider sel).
  - apply filter_weaker. intro r. now apply passes_wider.
Qed.

Lemma both_channels_fits :
  selection_fits two_channels (mkSelection ["Online"; "Store"] [] [] []).
Proof. intros a _. destruct a; reflexivity. Defined.

Lemma both_channels_wider :
  at_least_as_wide (mkSelection ["Online"; "Store"] [] [] [])
                   (mkSelection ["Online"] [] [] []).
Proof.
  intros [| | |]; simpl; auto.
  right. split; [discriminate |]. intros v [<- | []]. simpl. auto.
Defined.

Lemma filtered_df_monotone_witness :
  exists fdf fdf',
    filtered_df two_channels (mkSelection ["Online"] [] [] []) = Ok fdf
    /\ filtered_df two_channels (mkSelection ["Online"; "Store"] [] [] [])
       = Ok fdf'
    /\ incl (rows fdf) (rows fdf')
    /\ (List.length (rows fdf) <= List.length (rows fdf'))%nat.
Proof.
  apply (filtered_df_monotone two_channels).
  - apply online_only_fits.
  - apply both_channels_fits.
  - apply both_channels_wider.
Defined.

End FilterProofs.

(* ===================================================================== *)
(** ** The KPI cards under filtering                                      *)
(* ===================================================================== *)

Module KpiFilterProofs.

Import Series Sidebar Metrics Charts Facts SidebarProofs FilterProofs Samples.







End KpiFilterProofs.

(* ===================================================================== *)
(** ** The chart frames: counts per value and means per group             *)
(* ===================================================================== *)

Module ChartProofs.

Import Series Metrics Charts Facts Samples.

Section InsertionSort.

Context {A : Type} (before : A -> A -> bool).
Hypothesis before_total : forall a b, before a b = true \/ before b a = true.
Hypothesis before_trans :
  forall a b c, before a b = true -> before b c = true -> before a c = true.

Lemma insert_by_perm (x : A) (l : list A) :
  Permutation (x :: l) (insert_by before x l).
Proof.
  induction l as [| y t IH]; simpl.
  - reflexivity.
  - destruct (before x y); [reflexivity |].
    eapply Permutation_trans; [apply perm_swap |]. now apply perm_skip.
Qed.

Lemma sort_by_perm (l : list A) : Permutation l (sort_by before l).
Proof.
  induction l as [| x l IH]; simpl.
  - reflexivity.
  - eapply Permutation_trans; [apply perm_skip, IH |].
    apply insert_by_perm.
Qed.

Lemma insert_by_sorted (x : A) (l : list A) :
  StronglySorted (fun a b => before a b = true) l ->
  StronglySorted (fun a b => before a b = true) (insert_by before x l).
Proof.
  induction 1 as [| y t Hs IH Hy]; simpl.
  - repeat constructor.
  - destruct (before x y) eqn:E.
    + constructor; [now constructor |]. constructor; [exact E |].
      rewrite Forall_forall in *. intros z Hz.
      apply (before_trans x y z E). now apply Hy.
    + constructor; [exact IH |].
      rewrite Forall_forall in *. intros z Hz.
      apply (Permutation_in _ (Permutation_sym (insert_by_perm x t))) in Hz.
      destruct Hz as [<- | Hz]; [| now apply Hy].
      destruct (before_total x y) as [H | H]; [congruence | exact H].
Qed.

Lemma sort_by_sorted (l : list A) :
  StronglySorted (fun a b => before a b = true) (sort_by before l).
Proof.
  induction l as [| x l IH]; simpl.
  - constructor.
  - now apply insert_by_sorted.
Qed.

End InsertionSort.

Lemma sort_counts_contract : count_sort_contract (sort_by more_first_b).
Proof.
  intro l. split; [apply sort_by_perm |].
  assert (H : StronglySorted (fun a b => more_first_b a b = true)
                (sort_by more_first_b l)).
  { apply sort_by_sorted; unfold more_first_b.
    - intros a b. rewrite !Nat.leb_le. lia.
    - intros a b c. rewrite !Nat.leb_le. lia. }
  induction H as [| a t Hs IH Ha]; constructor; [exact IH |].
  rewrite Forall_forall in *. intros b Hb.
  unfold more_first. apply Nat.leb_le. now apply Ha.
Qed.

Lemma sort_means_contract : mean_sort_contract (sort_by larger_first_b).
Proof.
  intro l. split; [apply sort_by_perm |].
  apply sort_by_sorted; unfold larger_first_b.
  - intros [? [x |]] [? [y |]]; simpl; auto.
    destruct (Qle_bool y x) eqn:E; [now left | right].
    apply Qle_bool_iff, Qlt_le_weak, Qnot_le_lt.
    intro H. apply Qle_bool_iff in H. congruence.
  - intros [? [x |]] [? [y |]] [? [z |]]; simpl; auto; try discriminate.
    rewrite !Qle_bool_iff. intros H1 H2. eapply Qle_trans; eauto.
Qed.

Lemma count_cons (k v : string) (l : list string) :
  count k (v :: l) = ((if String.eqb k v then 1 else 0) + count k l)%nat.
Proof. unfold count. simpl. now destruct (String.eqb k v). Qed.

Lemma count_group (f : Row -> option string) (k : string) (rs : list Row) :
  count k (dropna (map f rs)) = List.length (group_by f k rs).
Proof.
  unfold group_by. induction rs as [| r rs IH]; [reflexivity |].
  simpl. destruct (f r) as [v |]; simpl.
  - rewrite count_cons, IH, (String.eqb_sym k v).
    now destruct (String.eqb v k).
  - exact IH.
Qed.

Definition total_count (l : list (string * nat)) : nat :=
  fold_right (fun e n => (snd e + n)%nat) 0%nat l.

Lemma total_count_perm (l l' : list (string * nat)) :
  Permutation l l' -> total_count l = total_count l'.
Proof. induction 1; simpl; lia. Qed.

Lemma counts_of_one (ks : list string) (v : string) :
  NoDup ks ->
  fold_right (fun k n => ((if String.eqb k v then 1 else 0) + n)%nat) 0%nat ks
  = if mem v ks then 1%nat else 0%nat.
Proof.
  induction ks as [| k ks IH]; intro Hnd; [reflexivity |].
  inversion Hnd as [| ? ? Hk Hks]; subst. simpl. rewrite (IH Hks).
  rewrite (String.eqb_sym v k).
  destruct (String.eqb_spec k v) as [-> | N]; simpl; [| reflexivity].
  apply mem_false in Hk. now rewrite Hk.
Qed.

Lemma counts_cover (ks vals : list string) :
  NoDup ks ->
  fold_right (fun k n => (count k vals + n)%nat) 0%nat ks
  = List.length (filter (fun v => mem v ks) vals).
Proof.
  intro Hnd. induction vals as [| v vals IH].
  - simpl. induction ks as [| k ks IHk]; [reflexivity |].
    simpl. apply IHk. now inversion Hnd.
  - assert (E : fold_right (fun k n => (count k (v :: vals) + n)%nat) 0%nat ks
                = (fold_right (fun k n => ((if String.eqb k v then 1 else 0) + n)%nat)
                              0%nat ks
                   + fold_right (fun k n => (count k vals + n)%nat) 0%nat ks)%nat).
    { clear. induction ks as [| k ks IHk]; [reflexivity |].
      simpl. rewrite IHk, count_cons. lia. }
    rewrite E, IH, (counts_of_one ks v Hnd). simpl.
    destruct (mem v ks); simpl; lia.
Qed.

Lemma value_counts_total (s : list (option string)) :
  total_count (value_counts_unsorted s) = List.length (dropna s).
Proof.
  unfold value_counts_unsorted.
  assert (E : forall ks vals,
             total_count (map (fun k => (k, count k vals)) ks)
             = fold_right (fun k n => (count k vals + n)%nat) 0%nat ks).
  { intros ks vals. induction ks as [| k ks IH]; [reflexivity |].
    simpl. now rewrite IH. }
  rewrite E.
  rewrite (counts_cover (unique (dropna s)) (dropna s) (unique_NoDup _)).
  f_equal. rewrite (filter_ext_in _ (fun _ => true)).
  - apply SidebarProofs.filter_all.
  - intros v Hv. apply mem_In, unique_In. exact Hv.
Qed.

(** What a frame of counts says about the column it counts. *)
Definition counts_of (f : Row -> option string) (rs : list Row)
  (out : list (string * nat)) : Prop :=
  NoDup (map fst out)
  /\ (forall k, In k (map fst out) <-> exists r, In r rs /\ f r = Some k)
  /\ (forall k n, In (k, n) out ->
                  (1 <= n)%nat /\ n = List.length (group_by f k rs))
  /\ total_count out = List.length (dropna (map f rs))
  /\ StronglySorted more_first out.

Lemma value_counts_counts_of
  (sort_counts : list (string * nat) -> list (string * nat))
  (f : Row -> option string) (rs : list Row) :
  count_sort_contract sort_counts ->
  counts_of f rs (sort_counts (value_counts_unsorted (map f rs))).
Proof.
  intro Hsort.
  destruct (Hsort (value_counts_unsorted (map f rs))) as [Hperm Hdesc].
  assert (Hkeys : map fst (value_counts_unsorted (map f rs))
                  = unique (dropna (map f rs))).
  { unfold value_counts_unsorted. rewrite map_map. simpl. apply map_id. }
  assert (Hp : Permutation (unique (dropna (map f rs)))
                 (map fst (sort_counts (value_counts_unsorted (map f rs))))).
  { rewrite <- Hkeys. now apply Permutation_map. }
  assert (Hk : forall k, In k (unique (dropna (map f rs)))
                         <-> exists r, In r rs /\ f r = Some k).
  { intro k. rewrite unique_In, dropna_In, in_map_iff.
    split; intros [r [H1 H2]]; exists r; auto. }
  repeat split.
  - eapply Permutation_NoDup; [exact Hp | apply unique_NoDup].
  - intro H. apply Hk.
    eapply Permutation_in; [apply Permutation_sym, Hp | exact H].
  - intro H. eapply Permutation_in; [exact Hp | now apply Hk].
  - apply (Permutation_in _ (Permutation_sym Hperm)) in H.
    unfold value_counts_unsorted in H. apply in_map_iff in H.
    destruct H as [k' [E Hin]]. inversion E; subst.
    apply ModeProofs.count_pos. exact (proj1 (unique_In _ _) Hin).
  - apply (Permutation_in _ (Permutation_sym Hperm)) in H.
    unfold value_counts_unsorted in H. apply in_map_iff in H.
    destruct H as [k' [E Hin]]. inversion E; subst. apply count_group.
  - rewrite <- (total_count_perm _ _ Hperm). apply value_counts_total.
  - exact Hdesc.
Qed.

(** The channel and gender charts: whatever routine sorts the counts,
    each frame lists every non-null value of its column once, with the
    number of rows that hold it (at least one), larger counts first, and
    the counts add up to the number of rows whose cell is not null. *)
Theorem value_counts_frames
  (sort_counts : list (string * nat) -> list (string * nat))
  (fdf : DataFrame) :
  count_sort_contract sort_counts ->
  (has_column fdf "Purchase_Channel" = true ->
   exists out, channel_counts sort_counts fdf = Some out
               /\ counts_of Purchase_Channel (rows fdf) out)
  /\ (has_column fdf "Gender" = true ->
      exists out, gender_counts sort_counts fdf = Some out
                  /\ counts_of Gender (rows fdf) out).
Proof.
  intro Hsort. split; intro Hcol.
  - unfold channel_counts. rewrite Hcol. eexists. split; [reflexivity |].
    now apply value_counts_counts_of.
  - unfold gender_counts. rewrite Hcol. eexists. split; [reflexivity |].
    now apply value_counts_counts_of.
Qed.

Lemma value_counts_frames_witness :
  exists out,
    channel_counts (sort_by more_first_b) two_channels = Some out
    /\ counts_of Purchase_Channel (rows two_channels) out.
Proof.
  destruct (value_counts_frames (sort_by more_first_b) two_channels
              sort_counts_contract) as [H _].
  apply H. reflexivity.
Defined.

End ChartProofs.

Module GroupMeanProofs.

Import Series Metrics Charts Facts ChartProofs Samples.

Lemma group_by_In (key : Row -> option string) (k : string) (rs : list Row)
  (r : Row) :
  In r (group_by key k rs) <-> In r rs /\ key r = Some k.
Proof.
  unfold group_by. rewrite filter_In.
  destruct (key r) as [v |]; simpl.
  - rewrite String.eqb_eq. split; intros [H E]; split; congruence.
  - split; intros [H E]; discriminate.
Qed.

(** What a frame of group means says about the rows it averages. *)
Definition means_of (key : Row -> option string) (value : Row -> num)
  (rs : list Row) (out : list (string * num)) : Prop :=
  NoDup (map fst out)
  /\ (forall k, In k (map fst out) <-> exists r, In r rs /\ key r = Some k)
  /\ (forall k m, In (k, m) out ->
        (forall r, In r rs -> key r = Some k -> value r = NaN) -> m = NaN)
  /\ StronglySorted larger_first out.

Lemma groupby_mean_means_of
  (sort_means : list (string * num) -> list (string * num))
  (key : Row -> option string) (value : Row -> num) (rs : list Row) :
  mean_sort_contract sort_means ->
  means_of key value rs (sort_means (groupby_mean key value rs)).
Proof.
  intro Hsort.
  destruct (Hsort (groupby_mean key value rs)) as [Hperm Hdesc].
  set (keys := sorted (unique (dropna (map key rs)))).
  assert (Hkeys : map fst (groupby_mean key value rs) = keys).
  { unfold groupby_mean. rewrite map_map. simpl. apply map_id. }
  assert (Hp : Permutation keys
                 (map fst (sort_means (groupby_mean key value rs)))).
  { rewrite <- Hkeys. now apply Permutation_map. }
  assert (Hk : forall k, In k keys <-> exists r, In r rs /\ key r = Some k).
  { intro k. unfold keys.
    rewrite sorted_In, unique_In, dropna_In, in_map_iff.
    split; intros [r [H1 H2]]; exists r; auto. }
  split; [| split; [| split]].
  - eapply Permutation_NoDup; [exact Hp |].
    apply sorted_NoDup, unique_NoDup.
  - intro k. rewrite <- Hk. split; intro H.
    + eapply Permutation_in; [apply Permutation_sym, Hp | exact H].
    + eapply Permutation_in; [exact Hp | exact H].
  - intros k m H Hn.
    apply (Permutation_in _ (Permutation_sym Hperm)) in H.
    unfold groupby_mean in H. apply in_map_iff in H.
    destruct H as [k' [E _]]. inversion E; subst.
    apply MeanProofs.mean_nan_iff. intros x Hx. apply in_map_iff in Hx.
    destruct Hx as [r [<- Hr]]. apply group_by_In in Hr.
    now apply Hn.
  - exact Hdesc.
Qed.

(** The two charts of group means: whatever routine sorts them and
    whatever the loyalty column holds, each frame lists every non-null
    group label once; a group none of whose rows carries a value has the
    mean NaN; larger means come first and NaN means last. *)
Theorem group_mean_frames
  (sort_means : list (string * num) -> list (string * num))
  (Brand_Loyalty : Row -> num) (fdf : DataFrame) :
  mean_sort_contract sort_means ->
  (has_column fdf "Income_Level" = true ->
   has_column fdf "Purchase_Amount" = true ->
   exists out, income_rev sort_means fdf = Some out
               /\ means_of Income_Level Purchase_Amount (rows fdf) out)
  /\ (has_column fdf "Brand_Loyalty" = true ->
      has_column fdf "Purchase_Category" = true ->
      exists out, loyalty sort_means Brand_Loyalty fdf = Some out
                  /\ means_of Purchase_Category Brand_Loyalty (rows fdf) out).
Proof.
  intro Hsort. split; intros H1 H2.
  - unfold income_rev. rewrite H1, H2. eexists. split; [reflexivity |].
    now apply groupby_mean_means_of.
  - unfold loyalty. rewrite H1, H2. eexists. split; [reflexivity |].
    now apply groupby_mean_means_of.
Qed.

Lemma group_mean_frames_witness :
  (exists out,
     income_rev (sort_by larger_first_b) three_high_income = Some out
     /\ means_of Income_Level Purchase_Amount (rows three_high_income) out)
  /\ income_rev (sort_by larger_first_b) three_high_income
     = Some [("High", Fin (90 # 3)); ("Low", Fin (20 # 1))]
  /\ income_rev (sort_by larger_first_b) MeanProofs.values_unrecorded
     = Some [("High", NaN); ("Low", NaN)].
Proof.
  split; [| split; vm_compute; reflexivity].
  destruct (group_mean_frames (sort_by larger_first_b) Purchase_Frequency
              three_high_income sort_means_contract) as [H _].
  apply H; reflexivity.
Defined.

End GroupMeanProofs.

(* ===================================================================== *)
(** ** More on the segment matcher                                        *)
(* ===================================================================== *)

Module SegmentProofs.

Import Series Insights Facts MatcherProofs Samples.



Lemma income_match_iff (p : Profile) (r : Row) (v : string) :
  income_input p = Some v ->
  (income_match p r = true <-> Income_Level r = Some v).
Proof.
  intro E. unfold income_match. rewrite E.
  destruct (Income_Level r) as [w |]; simpl.
  - rewrite String.eqb_eq. split; congruence.
  - split; discriminate.
Qed.

Lemma exact_match_income (p : Profile) (r : Row) :
  exact_match p r = true -> income_match p r = true.
Proof.
  unfold exact_match, income_match. rewrite !andb_true_iff. tauto.
Qed.

(** A profile whose income level occurs in the table always gets a
    segment with rows in it, and every row of the segment is a row of the
    table with that income level, on the exact path and on the fallback
    alike. *)
Theorem user_segment_has_income (df : DataFrame) (p : Profile) (v : string) :
  has_keys df ->
  income_input p = Some v ->
  (exists r, In r (rows df) /\ Income_Level r = Some v) ->
  exists log seg,
    user_segment df p = (log, Ok seg)
    /\ rows seg <> []
    /\ forall r, In r (rows seg) -> In r (rows df) /\ Income_Level r = Some v.
Proof.
  intros Hkeys Hv [r0 [Hr0 Hi0]].
  destruct (filter (exact_match p) (rows df)) as [| x t] eqn:E.
  - exists [Warning no_exact_match], (select (income_match p) df).
    split; [now apply user_segment_fallback |]. simpl. split.
    + intro Hnil.
      assert (Hin : In r0 (filter (income_match p) (rows df))).
      { apply filter_In. split; [exact Hr0 |].
        now apply (income_match_iff p r0 v Hv). }
      rewrite Hnil in Hin. destruct Hin.
    + intros r Hr. apply filter_In in Hr. destruct Hr as [Hr Hm].
      split; [exact Hr |]. now apply (income_match_iff p r v Hv).
  - exists [], (select (exact_match p) df).
    split; [apply user_segment_exact; [exact Hkeys | congruence] |].
    simpl. rewrite E. split; [discriminate |].
    intros r Hr. rewrite <- E in Hr. apply filter_In in Hr.
    destruct Hr as [Hr Hm]. split; [exact Hr |].
    apply (income_match_iff p r v Hv). now apply exact_match_income.
Qed.

Lemma user_segment_has_income_witness :
  exists log seg,
    user_segment three_high_income thirty_high_store = (log, Ok seg)
    /\ rows seg <> []
    /\ forall r, In r (rows seg) ->
                 In r (rows three_high_income) /\ Income_Level r = Some "High".
Proof.
  apply (user_segment_has_income three_high_income thirty_high_store "High").
  - apply all_columns_keys.
  - reflexivity.
  - eexists. split; [left; reflexivity | reflexivity].
Defined.



(** The insights block reads the frequency under the name
    [Purchase_Frequency] and without a guard: on a frame that lacks that
    column the run raises its KeyError once the segment's mean amount and
    top category are there, and no recommendation is shown. *)
Theorem insights_missing_frequency (df : DataFrame) (p : Profile)
  (log : list event) (seg : DataFrame) (c : string) :
  has_column df "Purchase_Amount" = true ->
  has_column df "Purchase_Frequency" = false ->
  user_segment df p = (log, Ok seg) ->
  columns seg = columns df ->
  top_category seg = Ok c ->
  insights df p = (log, Raise (KeyError "Purchase_Frequency")).
Proof.
  intros HA HF Hseg Hcols Htop. unfold insights. rewrite Hseg. simpl.
  unfold statistics, column_mean, require, has_column in *.
  rewrite Hcols, HA, HF, Htop. simpl. now rewrite app_nil_r.
Qed.

Definition dashboard_names_only : DataFrame :=
  mkFrame ["Age"; "Income_Level"; "Purchase_Channel"; "Product_Category";
           "Purchase_Amount"; "Frequency_of_Purchase"]
          (rows three_high_income).

Lemma insights_missing_frequency_witness :
  insights dashboard_names_only forty_one_high_store
  = ([], Raise (KeyError "Purchase_Frequency")).
Proof.
  apply (insights_missing_frequency dashboard_names_only forty_one_high_store
           [] (select (exact_match forty_one_high_store) dashboard_names_only)
           "Shoes").
  - reflexivity.
  - reflexivity.
  - reflexivity.
  - reflexivity.
  - vm_compute. reflexivity.
Defined.

End SegmentProofs.

(* ===================================================================== *)
(** ** More on the normalisation and on the defaults                      *)
(* ===================================================================== *)

Module LoaderMoreProofs.

Import Loader LoaderProofs.

(** Whether a string still holds a [$] or a [,]. *)
Fixpoint has_currency_mark (s : string) : bool :=
  match s with
  | EmptyString => false
  | String c s' => is_currency_mark c || has_currency_mark s'
  end.

(** The substitution of line 65 leaves no [$] and no [,] behind, changes
    nothing in a string that has neither, and so does nothing when it is
    applied a second time. *)
Theorem strip_currency_removes_marks (s : string) :
  has_currency_mark (strip_currency s) = false
  /\ (has_currency_mark s = false -> strip_currency s = s)
  /\ strip_currency (strip_currency s) = strip_currency s.
Proof.
  assert (H1 : forall t, has_currency_mark (strip_currency t) = false).
  { induction t as [| c t IH]; simpl; [reflexivity |].
    destruct (is_currency_mark c) eqn:E; simpl; [exact IH |].
    now rewrite E. }
  assert (H2 : forall t, has_currency_mark t = false -> strip_currency t = t).
  { induction t as [| c t IH]; simpl; [reflexivity |].
    intro H. apply orb_false_iff in H. destruct H as [Hc Ht].
    rewrite Hc. now rewrite IH. }
  split; [apply H1 |]. split; [apply H2 |]. apply H2, H1.
Qed.

Lemma strip_currency_removes_marks_witness :
  strip_currency "1250.50" = "1250.50".
Proof.
  destruct (strip_currency_removes_marks "1250.50") as [_ [H _]].
  apply H. reflexivity.
Defined.

(** How a converted cell relates to the cell it came from. *)
Definition converted (cast : string -> option num) (c : raw) (y : num) : Prop :=
  match c with
  | RNum x => y = x
  | RInt z => y = float_of_int z
  | RStr s => cast (strip_currency s) = Some y
  end.

Lemma mapM_converted (cast : string -> option num) (col : list raw)
  (ys : list num) :
  mapM (astype_float_cell cast) (map replace_cell col) = Ok ys ->
  Forall2 (converted cast) col ys.
Proof.
  revert ys. induction col as [| c col IH]; intros ys H; simpl in H.
  - inversion H. constructor.
  - destruct (astype_float_cell cast (replace_cell c)) as [y |] eqn:Ec;
      [| discriminate].
    simpl in H.
    destruct (mapM (astype_float_cell cast) (map replace_cell col))
      as [ys' |] eqn:Er; [| discriminate].
    simpl in H. inversion H; subst. constructor; [| now apply IH].
    destruct c as [s | x | z]; simpl in *.
    + destruct (cast (strip_currency s)); congruence.
    + congruence.
    + congruence.
Qed.

Lemma mapM_all_parse (cast : string -> option num) (col : list raw) :
  (forall s, In (RStr s) col -> cast (strip_currency s) <> None) ->
  exists ys, mapM (astype_float_cell cast) (map replace_cell col) = Ok ys.
Proof.
  induction col as [| c col IH]; intro H; simpl.
  - now exists [].
  - destruct IH as [ys Hys]; [intros s Hs; apply H; now right |].
    rewrite Hys. destruct c as [s | x | z]; simpl.
    + destruct (cast (strip_currency s)) as [y |] eqn:E.
      * now exists (y :: ys).
      * exfalso. apply (H s); [now left | exact E].
    + now exists (x :: ys).
    + now exists (float_of_int z :: ys).
Qed.

(** The conversion goes through exactly when every str cell parses once
    its marks are removed; and then it keeps every row in its place: a
    float cell as it was, an integer cell as the nearest float (the
    integer itself up to 2^53 in magnitude), a str cell as the number it
    parses to. *)
Theorem normalize_amount_succeeds_iff (cast : string -> option num)
  (col : list raw) :
  ((exists ys, normalize_amount cast col = Ok ys)
   <-> forall s, In (RStr s) col -> cast (strip_currency s) <> None)
  /\ (forall ys, normalize_amount cast col = Ok ys ->
                 Forall2 (converted cast) col ys)
  /\ (forall z, (Z.abs z <= 2 ^ 53)%Z ->
                converted cast (RInt z) (Fin (inject_Z z))).
Proof.
  unfold normalize_amount. split; [split | split].
  - intros [ys Hys] s Hin Hnone.
    assert (Hin' : In (RStr (strip_currency s)) (map replace_cell col)).
    { apply in_map_iff. exists (RStr s). split; [reflexivity | exact Hin]. }
    destruct (mapM_raises cast _ _ Hin' Hnone) as [s' [R _]].
    rewrite R in Hys. discriminate.
  - apply mapM_all_parse.
  - apply mapM_converted.
  - intros z Hz. simpl. unfold float_of_int.
    now rewrite round_to_53_bits_exact.
Qed.

Lemma normalize_amount_succeeds_iff_witness :
  Forall2 (converted plain_decimal)
          [RStr "$1,250.50"; RNum NaN] [Fin (125050 # 100); NaN]
  /\ Forall2 (converted plain_decimal)
             [RInt 7; RInt 9007199254740993]
             [Fin 7; Fin 9007199254740992]
  /\ converted plain_decimal (RInt 9007199254740992)
                             (Fin 9007199254740992).
Proof.
  split; [| split].
  - destruct (normalize_amount_succeeds_iff plain_decimal
                [RStr "$1,250.50"; RNum NaN]) as [_ [H _]].
    apply H. vm_compute. reflexivity.
  - destruct (normalize_amount_succeeds_iff plain_decimal
                [RInt 7; RInt 9007199254740993]) as [_ [H _]].
    apply H. vm_compute. reflexivity.
  - destruct (normalize_amount_succeeds_iff plain_decimal []) as [_ [_ H]].
    apply (H 9007199254740992%Z). vm_compute. discriminate.
Defined.

End LoaderMoreProofs.

Module DefaultsMoreProofs.

Import Series Sidebar Facts SidebarProofs DefaultsProofs Samples.

(** The defaults show everything when nothing is missing: if no row has a
    null in a filterable column the frame has, the default selection
    returns the frame unchanged. *)
Theorem default_selection_reproduces (df : DataFrame) :
  (forall a r, has_column df (column_name a) = true ->
               In r (rows df) -> cell (column_name a) r <> None) ->
  filtered_df df (default_selection df) = Ok df.
Proof.
  intro Hfull.
  rewrite (filtered_df_rows df _ (default_selection_fits df)).
  rewrite (filter_ext_in _ (fun _ => true)).
  - rewrite filter_all. now destruct df.
  - intros r Hr. apply passes_iff. intros a Ha.
    rewrite default_selected in *.
    assert (Hcol : has_column df (column_name a) = true).
    { destruct (get_options df (column_name a)) as [| v l] eqn:E;
        [congruence |].
      assert (Hin : In v (get_options df (column_name a)))
        by (rewrite E; now left).
      apply get_options_In in Hin. tauto. }
    destruct (cell (column_name a) r) as [v |] eqn:E.
    + exists v. split; [reflexivity |]. apply get_options_In.
      split; [exact Hcol | now exists r].
    + exfalso. now apply (Hfull a r).
Qed.

Lemma default_selection_reproduces_witness :
  filtered_df two_channels (default_selection two_channels) = Ok two_channels.
Proof.
  apply (default_selection_reproduces two_channels).
  intros a r _ [<- | [<- | []]]; destruct a; discriminate.
Defined.

End DefaultsMoreProofs.
